(** * Library Manager (main.py): a shallow embedding and its properties

    The program keeps three collections in a [Library] object: [books]
    (a dict from title to [Book]), [users] (a dict from id to [User]) and
    [transactions] (a list).  The methods mutate these collections, read the
    clock ([datetime.utcnow]), draw identifiers ([uuid.uuid4]) and read and
    write one JSON file.

    The embedding follows the source:
    - a Python [dict] is an insertion-ordered association list ([PyDict]):
      iteration order is observable in [generate_report];
    - a Python [int] is a [Z]; a [str] is the [string] of its UTF-8 bytes,
      a surrogate code point, which a [str] can hold, written as three
      bytes like the others of its range;
    - the methods live in a state monad [M] over the program state (the
      [Library] object and the outside [World]: clock, identifier source and
      disk); an exception leaves the state as it was when it was raised;
    - the pieces of the Python standard library that the program calls
      ([datetime], [json]) are modelled next to the code that uses them. *)

From Stdlib Require Import ZArith List String Ascii Bool Lia.
From Stdlib Require Import Permutation Sorted DecimalString.
Import ListNotations.

Set Warnings "-register-all".

Local Open Scope string_scope.
Local Open Scope Z_scope.

(* ===================================================================== *)
(** ** Python dicts with [str] keys *)
(* ===================================================================== *)

(** A dict keeps its entries in insertion order.  Assigning to a key that is
    present keeps the entry in place; assigning to a new key appends an
    entry; [del] removes the entry.  A real dict never holds a key twice:
    [PyDict.wf]. *)
Module PyDict.

Section Ops.
Context {V : Type}.

Definition t : Type := list (string * V).

Definition empty : t := [].

(** [d.get(k)] *)
Fixpoint get (k : string) (d : t) : option V :=
  match d with
  | [] => None
  | (k', v) :: d' => if String.eqb k' k then Some v else get k d'
  end.

(** [k in d] *)
Definition mem (k : string) (d : t) : bool :=
  match get k d with Some _ => true | None => false end.

Definition replace (k : string) (v : V) (d : t) : t :=
  map (fun kv => if String.eqb (fst kv) k then (fst kv, v) else kv) d.

(** [d[k] = v] *)
Definition set (k : string) (v : V) (d : t) : t :=
  if mem k d then replace k v d else (d ++ [(k, v)])%list.

Definition remove (k : string) (d : t) : t :=
  filter (fun kv => negb (String.eqb (fst kv) k)) d.

(** [del d[k]]: [None] stands for the [KeyError] of an absent key. *)
Definition del (k : string) (d : t) : option t :=
  if mem k d then Some (remove k d) else None.

(** [d.keys()], [d.values()], [d.items()] in iteration order *)
Definition keys (d : t) : list string := map fst d.
Definition values (d : t) : list V := map snd d.
Definition items (d : t) : list (string * V) := d.

(** [{k: v for k, v in l}]: the entries are assigned one after the other *)
Definition of_items (l : list (string * V)) : t :=
  fold_left (fun d kv => set (fst kv) (snd kv) d) l empty.

Definition wf (d : t) : Prop := NoDup (keys d).

End Ops.

Arguments t : clear implicits.

End PyDict.

Abbreviation dict := PyDict.t.

(* ===================================================================== *)
(** ** The [datetime] module *)
(* ===================================================================== *)

(** The calendar arithmetic of CPython's [datetime] ([_ymd2ord],
    [_ord2ymd], [isoformat], [datetime + timedelta(days=n)]), as far as
    main.py uses it.  Ordinals count days from 0001-01-01 = 1. *)
Module PyDatetime.

Record date := mkdate { year : Z; month : Z; day : Z }.

Record datetime := mkdatetime {
  dt_date : date;            (* [dt.date()] *)
  hour : Z; minute : Z; second : Z; microsecond : Z
}.

Definition _MAXORDINAL : Z := 3652059.   (* date(9999, 12, 31).toordinal() *)

Definition _DAYS_IN_MONTH : list Z :=
  [-1; 31; 28; 31; 30; 31; 30; 31; 31; 30; 31; 30; 31].

Definition _DAYS_BEFORE_MONTH : list Z :=
  [-1; 0; 31; 59; 90; 120; 151; 181; 212; 243; 273; 304; 334].

Definition tbl (l : list Z) (i : Z) : Z := nth (Z.to_nat i) l (-1).

Definition _is_leap (y : Z) : bool :=
  (y mod 4 =? 0) && (negb (y mod 100 =? 0) || (y mod 400 =? 0)).

Definition _days_before_year (y : Z) : Z :=
  let y := y - 1 in y * 365 + y / 4 - y / 100 + y / 400.

Definition _days_in_month (y m : Z) : Z :=
  if (m =? 2) && _is_leap y then 29 else tbl _DAYS_IN_MONTH m.

Definition _days_before_month (y m : Z) : Z :=
  tbl _DAYS_BEFORE_MONTH m + (if (2 <? m) && _is_leap y then 1 else 0).

Definition _ymd2ord (y m d : Z) : Z :=
  _days_before_year y + _days_before_month y m + d.

Definition _DI400Y : Z := 146097.
Definition _DI100Y : Z := 36524.
Definition _DI4Y : Z := 1461.

Definition _ord2ymd (n : Z) : date :=
  let n := n - 1 in
  let n400 := n / _DI400Y in
  let n := n mod _DI400Y in
  let y := n400 * 400 + 1 in
  let n100 := n / _DI100Y in
  let n := n mod _DI100Y in
  let n4 := n / _DI4Y in
  let n := n mod _DI4Y in
  let n1 := n / 365 in
  let n := n mod 365 in
  let y := y + n100 * 100 + n4 * 4 + n1 in
  if (n1 =? 4) || (n100 =? 4) then mkdate (y - 1) 12 31
  else
    let leapyear := (n1 =? 3) && (negb (n4 =? 24) || (n100 =? 3)) in
    let m := Z.shiftr (n + 50) 5 in
    let preceding :=
      tbl _DAYS_BEFORE_MONTH m + (if (2 <? m) && leapyear then 1 else 0) in
    if n <? preceding then
      let m := m - 1 in
      let preceding :=
        preceding
        - (tbl _DAYS_IN_MONTH m + (if (m =? 2) && leapyear then 1 else 0)) in
      mkdate y m (n - preceding + 1)
    else mkdate y m (n - preceding + 1).

(** [d.toordinal()] and [date.fromordinal(n)] *)
Definition toordinal (d : date) : Z := _ymd2ord (year d) (month d) (day d).
Definition fromordinal (n : Z) : date := _ord2ymd n.

(** [dt + timedelta(days=n)]: the time of day is kept, the date moves by
    [n] days; outside 0001-01-01 .. 9999-12-31 Python raises
    [OverflowError] ([None] here). *)
Definition add_days (dt : datetime) (n : Z) : option datetime :=
  let o := toordinal (dt_date dt) + n in
  if (0 <? o) && (o <=? _MAXORDINAL)
  then Some (mkdatetime (fromordinal o)
                        (hour dt) (minute dt) (second dt) (microsecond dt))
  else None.

(** [d1 < d2] on dates: the comparison of the triples (year, month, day) *)
Definition date_ltb (d1 d2 : date) : bool :=
  (year d1 <? year d2)
  || ((year d1 =? year d2)
      && ((month d1 <? month d2)
          || ((month d1 =? month d2) && (day d1 <? day d2)))).

(** ["%0<w>d" % z] *)
Definition digits (z : Z) : string := NilZero.string_of_uint (N.to_uint (Z.to_N z)).

Fixpoint zeros (n : nat) : string :=
  match n with O => EmptyString | S n' => String "0" (zeros n') end.

Definition zfill (w : nat) (s : string) : string :=
  zeros (w - String.length s) ++ s.

Definition fmt_d (w : nat) (z : Z) : string :=
  if z <? 0 then String "-" (zfill (w - 1) (digits (- z)))
  else zfill w (digits z).

(** [d.isoformat()] : YYYY-MM-DD *)
Definition date_isoformat (d : date) : string :=
  fmt_d 4 (year d) ++ "-" ++ fmt_d 2 (month d) ++ "-" ++ fmt_d 2 (day d).

(** [dt.isoformat()] : YYYY-MM-DDTHH:MM:SS, with .ffffff when the
    microseconds are not zero *)
Definition datetime_isoformat (dt : datetime) : string :=
  date_isoformat (dt_date dt) ++ "T"
  ++ fmt_d 2 (hour dt) ++ ":" ++ fmt_d 2 (minute dt) ++ ":" ++ fmt_d 2 (second dt)
  ++ (if microsecond dt =? 0 then EmptyString else "." ++ fmt_d 6 (microsecond dt)).

End PyDatetime.

Import PyDatetime.

(* ===================================================================== *)
(** ** JSON documents and the disk *)
(* ===================================================================== *)

(** The values [json.load] gives: dicts with [str] keys in the order of
    the text, lists, strings, integers.  There are no floats, the store has
    none. *)
Inductive json : Type :=
| JNull
| JBool (b : bool)
| JInt (z : Z)
| JStr (s : string)
| JList (l : list json)
| JDict (d : list (string * json)).

(** Truth value of a JSON value in Python ([x or y]) *)
Definition truthy (j : json) : bool :=
  match j with
  | JNull => false
  | JBool b => b
  | JInt z => negb (z =? 0)
  | JStr s => negb (String.eqb s EmptyString)
  | JList l => match l with [] => false | _ => true end
  | JDict d => match d with [] => false | _ => true end
  end.

(** A file as [json.load] finds it: a text it reads as the document [j],
    or content it rejects. *)
Inductive file : Type :=
| NotJson               (* content that [json.load] rejects *)
| Doc (j : json).

(** *** What [json.dump] writes of a value, read back

    [json.dump] prints an [int] with [int.__repr__], which CPython refuses
    for more than [sys.int_info.default_max_str_digits] decimal digits
    (since 3.11 and the security releases before it): the dump then stops
    with [ValueError].  It writes every character outside ASCII as a
    [\uXXXX] escape, a character above U+FFFF as the escapes of its two
    surrogates; [json.load] joins the escape of a high surrogate that is
    followed by the escape of a low one into one character.  So a [str]
    that holds a high surrogate followed by a low one is read back as the
    [str] with the one character in their place, and two keys of a dict can
    be read back as one. *)

Definition default_max_str_digits : Z := 4300.

(** [repr(z)] is allowed: [z] has at most 4300 decimal digits *)
Definition int_fits (z : Z) : bool := Z.abs z <? 10 ^ default_max_str_digits.

Fixpoint json_fits (j : json) : bool :=
  match j with
  | JInt z => int_fits z
  | JList l => forallb json_fits l
  | JDict d => forallb (fun kv => json_fits (snd kv)) d
  | _ => true
  end.

Definition byte_val (c : ascii) : Z := Z.of_N (N_of_ascii c).

Definition byte_of (z : Z) : ascii := ascii_of_N (Z.to_N z).

(** The character that the first six bytes of [s] are read back as, when
    they are a high surrogate (ED A0..AF 80..BF) and a low one
    (ED B0..BF 80..BF) *)
Definition surrogate_pair (s : string) : option Z :=
  match s with
  | String a (String b (String c (String d (String e (String f _))))) =>
      let '(a, b, c) := (byte_val a, byte_val b, byte_val c) in
      let '(d, e, f) := (byte_val d, byte_val e, byte_val f) in
      if (a =? 237) && (160 <=? b) && (b <=? 175) && (128 <=? c) && (c <=? 191)
         && (d =? 237) && (176 <=? e) && (e <=? 191) && (128 <=? f) && (f <=? 191)
      then Some (65536 + ((b - 160) * 64 + (c - 128)) * 1024
                 + ((e - 176) * 64 + (f - 128)))
      else None
  | _ => None
  end.

(** The four UTF-8 bytes of a character from U+10000 on *)
Definition utf8_4 (cp : Z) : string :=
  String (byte_of (240 + cp / 262144))
    (String (byte_of (128 + (cp / 4096) mod 64))
       (String (byte_of (128 + (cp / 64) mod 64))
          (String (byte_of (128 + cp mod 64)) EmptyString))).

(** The text is read from left to right; [skip] bytes belong to a pair
    that was already joined. *)
Fixpoint join_from (skip : nat) (s : string) : string :=
  match s with
  | EmptyString => EmptyString
  | String c s' =>
      match skip with
      | S k => join_from k s'
      | O =>
          match surrogate_pair s with
          | Some cp => utf8_4 cp ++ join_from 5 s'
          | None => String c (join_from 0 s')
          end
      end
  end.

(** A [str] as it is read back *)
Definition join_surrogates (s : string) : string := join_from 0 s.

(** A value as it is read back: the strings and the keys with their
    surrogate pairs joined, and a dict built from the entries of the text
    one after the other. *)
Fixpoint json_reread (j : json) : json :=
  match j with
  | JStr s => JStr (join_surrogates s)
  | JList l => JList (map json_reread l)
  | JDict d =>
      JDict (PyDict.of_items
               (map (fun kv => (join_surrogates (fst kv), json_reread (snd kv))) d))
  | _ => j
  end.

(* ===================================================================== *)
(** ** Program state, exceptions and the method monad *)
(* ===================================================================== *)

(** class Book *)
Record Book := mkBook {
  b_title : string;
  b_author : string;
  b_genre : string;
  b_quantity : Z;
  b_issued_count : Z
}.

(** class User; [borrowed] maps a title to its due date (ISO) *)
Record User := mkUser {
  u_id : string;
  u_name : string;
  u_contact : string;
  u_borrowed : dict string
}.

(** class Transaction; [action] is "issue" or "return" *)
Record Transaction := mkTransaction {
  t_user_id : string;
  t_book_title : string;
  t_action : string;
  t_date : string
}.

(** class Library.  Every Book and User object is referenced from exactly
    one dict entry, so mutating the object is updating that entry. *)
Record Library := mkLibrary {
  books : dict Book;
  users : dict User;
  transactions : list Transaction
}.

(** What the methods read and write outside the object: the clock
    ([clock i] is the value of the [i]-th call of [datetime.utcnow]), the
    identifier source ([uuids i] is the [i]-th [str(uuid.uuid4())]) and the
    files. *)
Record World := mkWorld {
  clock : nat -> datetime;
  clock_reads : nat;
  uuids : nat -> string;
  uuid_draws : nat;
  disk : string -> option file
}.

Record State := mkState { self : Library; world : World }.

Inductive exn : Type :=
| KeyError (k : string)
| TypeError
| AttributeError
| ValueError
| OverflowError
| JSONDecodeError
| Untyped.   (* a value whose Python type has no counterpart in the typed
                records above: CPython would store it as it is *)

Inductive outcome (A : Type) : Type :=
| Ret (a : A)
| Raise (e : exn).
Arguments Ret {A} a.
Arguments Raise {A} e.

(** A method body: it returns or raises, and leaves a state either way. *)
Definition M (A : Type) : Type := State -> outcome A * State.

Definition ret {A} (a : A) : M A := fun st => (Ret a, st).

Definition raise {A} (e : exn) : M A := fun st => (Raise e, st).

Definition bind {A B} (m : M A) (k : A -> M B) : M B :=
  fun st =>
    match m st with
    | (Ret a, st') => k a st'
    | (Raise e, st') => (Raise e, st')
    end.

Notation "x <- m ;; k" := (bind m (fun x => k))
  (at level 61, m at next level, right associativity).
Notation "m ;; k" := (bind m (fun _ => k))
  (at level 61, right associativity).

Definition get_self : M Library := fun st => (Ret (self st), st).

Definition set_books (bs : dict Book) : M unit :=
  fun st => (Ret tt, mkState (mkLibrary bs (users (self st)) (transactions (self st)))
                             (world st)).

Definition set_users (us : dict User) : M unit :=
  fun st => (Ret tt, mkState (mkLibrary (books (self st)) us (transactions (self st)))
                             (world st)).

Definition set_transactions (ts : list Transaction) : M unit :=
  fun st => (Ret tt, mkState (mkLibrary (books (self st)) (users (self st)) ts)
                             (world st)).

(** [datetime.utcnow()] *)
Definition utcnow : M datetime :=
  fun st =>
    let w := world st in
    (Ret (clock w (clock_reads w)),
     mkState (self st)
             (mkWorld (clock w) (S (clock_reads w)) (uuids w) (uuid_draws w) (disk w))).

(** [str(uuid.uuid4())] *)
Definition uuid4 : M string :=
  fun st =>
    let w := world st in
    (Ret (uuids w (uuid_draws w)),
     mkState (self st)
             (mkWorld (clock w) (clock_reads w) (uuids w) (S (uuid_draws w)) (disk w))).

(** [open(filename, "r")] followed by reading the whole file *)
Definition read_file (filename : string) : M (option file) :=
  fun st => (Ret (disk (world st) filename), st).

(** [open(filename, "w")] followed by writing the whole file *)
Definition write_file (filename : string) (c : file) : M unit :=
  fun st =>
    let w := world st in
    (Ret tt,
     mkState (self st)
             (mkWorld (clock w) (clock_reads w) (uuids w) (uuid_draws w)
                      (fun f => if String.eqb f filename then Some c else disk w f))).

(** [with open(filename, "w") as f: json.dump(data, f, indent=2)].  The
    file is emptied when it is opened and the text is written piece by
    piece: when an integer is refused, the file is left with the beginning
    of the text, which is no JSON document. *)
Definition json_dump (filename : string) (data : json) : M unit :=
  if json_fits data then write_file filename (Doc (json_reread data))
  else write_file filename NotJson ;; raise ValueError.

(** [d[k]] on a dict of the store *)
Definition getitem {V} (k : string) (d : dict V) : M V :=
  match PyDict.get k d with
  | Some v => ret v
  | None => raise (KeyError k)
  end.

(** [del d[k]] *)
Definition delitem {V} (k : string) (d : dict V) : M (dict V) :=
  match PyDict.del k d with
  | Some d' => ret d'
  | None => raise (KeyError k)
  end.

(** [for x in l: body]: the bodies run in order, the first exception stops
    the loop. *)
Fixpoint mapM {A B} (f : A -> M B) (l : list A) : M (list B) :=
  match l with
  | [] => ret []
  | x :: l' => y <- f x ;; ys <- mapM f l' ;; ret (y :: ys)
  end.

(** A loop that builds a value: [acc = init; for x in l: acc = f(acc, x)] *)
Fixpoint foldM {A B} (f : B -> A -> M B) (l : list A) (acc : B) : M B :=
  match l with
  | [] => ret acc
  | x :: l' => acc' <- f acc x ;; foldM f l' acc'
  end.

(** *** Reading Python values out of a JSON document *)

(** [d[k]] *)
Definition subscript (d : json) (k : string) : M json :=
  match d with
  | JDict l => getitem k l
  | _ => raise TypeError
  end.

(** [d.get(k, default)] *)
Definition py_get (d : json) (k : string) (default : json) : M json :=
  match d with
  | JDict l => ret (match PyDict.get k l with Some v => v | None => default end)
  | _ => raise AttributeError
  end.

(** [d.items()] *)
Definition py_items (d : json) : M (list (string * json)) :=
  match d with
  | JDict l => ret (PyDict.items l)
  | _ => raise AttributeError
  end.

(** [for x in v] : the elements of a list, the keys of a dict, the
    characters of a string *)
Definition py_iter (v : json) : M (list json) :=
  match v with
  | JList l => ret l
  | JDict d => ret (map JStr (PyDict.keys d))
  | JStr s => ret (map (fun c => JStr (String c EmptyString)) (list_ascii_of_string s))
  | _ => raise TypeError
  end.

(** The fields of the records are typed; a document may hold any value
    there. *)
Definition as_str (j : json) : M string :=
  match j with JStr s => ret s | _ => raise Untyped end.

Definition as_int (j : json) : M Z :=
  match j with JInt z => ret z | _ => raise Untyped end.

Definition as_str_dict (j : json) : M (dict string) :=
  match j with
  | JDict l => foldM (fun acc kv => s <- as_str (snd kv) ;;
                                    ret (acc ++ [(fst kv, s)])%list) l []
  | _ => raise Untyped
  end.

(* ===================================================================== *)
(** ** The classes *)
(* ===================================================================== *)

(** *** Book *)

Definition Book_init (title author genre : string) (quantity : Z) : Book :=
  mkBook title author genre quantity 0.

Definition Book_to_dict (b : Book) : json :=
  JDict [("title", JStr (b_title b));
         ("author", JStr (b_author b));
         ("genre", JStr (b_genre b));
         ("quantity", JInt (b_quantity b));
         ("issued_count", JInt (b_issued_count b))].

Definition with_quantity (q : Z) (b : Book) : Book :=
  mkBook (b_title b) (b_author b) (b_genre b) q (b_issued_count b).

Definition with_issued_count (c : Z) (b : Book) : Book :=
  mkBook (b_title b) (b_author b) (b_genre b) (b_quantity b) c.

Definition Book_from_dict (d : json) : M Book :=
  title <- (j <- subscript d "title" ;; as_str j) ;;
  author <- (j <- subscript d "author" ;; as_str j) ;;
  genre <- (j <- subscript d "genre" ;; as_str j) ;;
  quantity <- (j <- subscript d "quantity" ;; as_int j) ;;
  let b := Book_init title author genre quantity in
  issued_count <- (j <- py_get d "issued_count" (JInt 0) ;; as_int j) ;;
  ret (with_issued_count issued_count b).

(** *** User *)

Definition User_init (name contact : string) : M User :=
  id <- uuid4 ;;
  ret (mkUser id name contact PyDict.empty).

Definition str_dict_to_json (d : dict string) : json :=
  JDict (map (fun kv => (fst kv, JStr (snd kv))) d).

Definition User_to_dict (u : User) : json :=
  JDict [("id", JStr (u_id u));
         ("name", JStr (u_name u));
         ("contact", JStr (u_contact u));
         ("borrowed", str_dict_to_json (u_borrowed u))].

Definition with_id (i : string) (u : User) : User :=
  mkUser i (u_name u) (u_contact u) (u_borrowed u).

Definition with_borrowed (bd : dict string) (u : User) : User :=
  mkUser (u_id u) (u_name u) (u_contact u) bd.

Definition User_from_dict (d : json) : M User :=
  name <- (j <- subscript d "name" ;; as_str j) ;;
  contact <- (j <- subscript d "contact" ;; as_str j) ;;
  u <- User_init name contact ;;
  id <- (j <- subscript d "id" ;; as_str j) ;;
  let u := with_id id u in
  borrowed <- (j <- py_get d "borrowed" (JDict []) ;; as_str_dict j) ;;
  ret (with_borrowed borrowed u).

(** *** Transaction *)

(** [self.date = date or datetime.utcnow().isoformat()]: [None] and the
    empty string are both replaced by the current time. *)
Definition Transaction_init (user_id book_title action : string)
    (date : option string) : M Transaction :=
  d <- match date with
       | Some s =>
           if String.eqb s EmptyString
           then now <- utcnow ;; ret (datetime_isoformat now)
           else ret s
       | None => now <- utcnow ;; ret (datetime_isoformat now)
       end ;;
  ret (mkTransaction user_id book_title action d).

Definition Transaction_to_dict (t : Transaction) : json :=
  JDict [("user_id", JStr (t_user_id t));
         ("book_title", JStr (t_book_title t));
         ("action", JStr (t_action t));
         ("date", JStr (t_date t))].

Definition Transaction_from_dict (d : json) : M Transaction :=
  user_id <- (j <- subscript d "user_id" ;; as_str j) ;;
  book_title <- (j <- subscript d "book_title" ;; as_str j) ;;
  action <- (j <- subscript d "action" ;; as_str j) ;;
  jd <- py_get d "date" JNull ;;
  date <- (if truthy jd then s <- as_str jd ;; ret (Some s) else ret None) ;;
  Transaction_init user_id book_title action date.

(** *** Library *)

Definition Library_init : Library := mkLibrary PyDict.empty PyDict.empty [].

(** [self.books[title].<field> = ...] and [self.users[id].<field> = ...]:
    the object stored under the key is changed where it is. *)
Definition mutate_book (title : string) (f : Book -> Book) : M unit :=
  s <- get_self ;;
  b <- getitem title (books s) ;;
  set_books (PyDict.set title (f b) (books s)).

Definition mutate_user (user_id : string) (f : User -> User) : M unit :=
  s <- get_self ;;
  u <- getitem user_id (users s) ;;
  set_users (PyDict.set user_id (f u) (users s)).

Definition append_transaction (t : Transaction) : M unit :=
  s <- get_self ;;
  set_transactions (transactions s ++ [t])%list.

Definition add_book (title author genre : string) (quantity : Z) : M unit :=
  s <- get_self ;;
  if PyDict.mem title (books s) then
    mutate_book title (fun b => with_quantity (b_quantity b + quantity) b)
  else
    set_books (PyDict.set title (Book_init title author genre quantity) (books s)).

Definition remove_book (title : string) : M bool :=
  s <- get_self ;;
  if PyDict.mem title (books s) then
    bs <- delitem title (books s) ;;
    set_books bs ;;
    ret true
  else ret false.

Definition add_user (name contact : string) : M string :=
  u <- User_init name contact ;;
  s <- get_self ;;
  set_users (PyDict.set (u_id u) u (users s)) ;;
  ret (u_id u).

Definition remove_user (user_id : string) : M bool :=
  s <- get_self ;;
  if PyDict.mem user_id (users s) then
    us <- delitem user_id (users s) ;;
    set_users us ;;
    ret true
  else ret false.

(** [datetime + timedelta(days=n)] *)
Definition plus_days (dt : datetime) (n : Z) : M datetime :=
  match add_days dt n with
  | Some dt' => ret dt'
  | None => raise OverflowError
  end.

Definition issue_book (user_id title : string) : M (bool * string) :=
  s <- get_self ;;
  if negb (PyDict.mem user_id (users s)) then ret (false, "User not found") else
  if negb (PyDict.mem title (books s)) then ret (false, "Book not found") else
  book <- getitem title (books s) ;;
  if b_quantity book <=? 0 then ret (false, "No copies available") else
  now <- utcnow ;;
  later <- plus_days now 14 ;;
  let due := date_isoformat (dt_date later) in
  mutate_user user_id
    (fun user => with_borrowed (PyDict.set title due (u_borrowed user)) user) ;;
  mutate_book title (fun book => with_quantity (b_quantity book - 1) book) ;;
  mutate_book title (fun book => with_issued_count (b_issued_count book + 1) book) ;;
  t <- Transaction_init user_id title "issue" None ;;
  append_transaction t ;;
  ret (true, "Issued. Due: " ++ due).

Definition return_book (user_id title : string) : M (bool * string) :=
  s <- get_self ;;
  if negb (PyDict.mem user_id (users s)) then ret (false, "User not found") else
  user <- getitem user_id (users s) ;;
  if negb (PyDict.mem title (u_borrowed user))
  then ret (false, "User did not borrow this book") else
  bd <- delitem title (u_borrowed user) ;;
  mutate_user user_id (with_borrowed bd) ;;
  s <- get_self ;;
  (if PyDict.mem title (books s) then
     mutate_book title (fun b => with_quantity (b_quantity b + 1) b)
   else
     set_books (PyDict.set title (Book_init title "Unknown" "Unknown" 1) (books s))) ;;
  t <- Transaction_init user_id title "return" None ;;
  append_transaction t ;;
  ret (true, "Returned").

(** *** sorted(..., key=..., reverse=True) *)

(** Python's [sorted] is stable, also with [reverse=True]: the result is in
    descending key order and elements with equal keys keep the order they
    had.  These two facts determine the result; the insertion sort below
    computes it. *)
Section Sorting.
Context {A : Type} (key : A -> Z).

Fixpoint insert_desc (x : A) (l : list A) : list A :=
  match l with
  | [] => [x]
  | y :: l' => if key x <? key y then y :: insert_desc x l' else x :: y :: l'
  end.

Definition sorted_desc (l : list A) : list A := fold_right insert_desc [] l.
End Sorting.

(** *** generate_report *)

Record Report := mkReport {
  total_books : Z;
  unique_titles : Z;
  total_users : Z;
  popular : list json;
  overdue : list json
}.

Definition sum_Z (l : list Z) : Z := fold_left Z.add l 0.

Definition popular_books (s : Library) : list Book :=
  firstn 10 (sorted_desc b_issued_count (PyDict.values (books s))).

Definition overdue_entry (u : User) (title due : string) : json :=
  JDict [("user_id", JStr (u_id u)); ("name", JStr (u_name u));
         ("book", JStr title); ("due", JStr due)].

Section Report.
(** The two parsers of the standard library, whose accepted formats
    depend on the Python version: [datetime.fromisoformat(s)] and
    [datetime.strptime(s, "%Y-%m-%d")], [None] when they raise. *)
Variable fromisoformat : string -> option datetime.
Variable strptime_ymd : string -> option datetime.

(** try: fromisoformat(due).date()  except: strptime(due, ...).date() *)
Definition due_date_of (due : string) : option date :=
  match fromisoformat due with
  | Some dt => Some (dt_date dt)
  | None =>
      match strptime_ymd due with
      | Some dt => Some (dt_date dt)
      | None => None
      end
  end.

Definition parse_due (due : string) : M date :=
  match due_date_of due with
  | Some d => ret d
  | None => raise ValueError     (* the exception of [strptime] escapes *)
  end.

Definition overdue_step (today : date) (u : User)
    (acc : list json) (item : string * string) : M (list json) :=
  let '(title, due) := item in
  due_date <- parse_due due ;;
  if date_ltb due_date today
  then ret (acc ++ [overdue_entry u title due])%list
  else ret acc.

Definition generate_report : M Report :=
  s <- get_self ;;
  let total := sum_Z (map b_quantity (PyDict.values (books s))) in
  let titles := Z.of_nat (List.length (books s)) in
  let nusers := Z.of_nat (List.length (users s)) in
  let pop := map Book_to_dict (popular_books s) in
  now <- utcnow ;;
  let today := dt_date now in
  od <- foldM (fun acc u =>
                 foldM (overdue_step today u) (PyDict.items (u_borrowed u)) acc)
              (PyDict.values (users s)) [] ;;
  ret (mkReport total titles nusers pop od).
End Report.

(** *** save_to_file and load_from_file *)

(** The dict [data] that [save_to_file] builds *)
Definition snapshot (s : Library) : json :=
  JDict [("books",
          JDict (PyDict.of_items
                   (map (fun tb => (fst tb, Book_to_dict (snd tb)))
                        (PyDict.items (books s)))));
         ("users",
          JDict (PyDict.of_items
                   (map (fun iu => (fst iu, User_to_dict (snd iu)))
                        (PyDict.items (users s)))));
         ("transactions", JList (map Transaction_to_dict (transactions s)))].

Definition save_to_file (filename : string) : M bool :=
  s <- get_self ;;
  let data := snapshot s in
  json_dump filename data ;;
  ret true.

Definition load_from_file (filename : string) : M bool :=
  c <- read_file filename ;;
  match c with
  | None => ret false                       (* except FileNotFoundError *)
  | Some NotJson => raise JSONDecodeError
  | Some (Doc data) =>
      bi <- (j <- py_get data "books" (JDict []) ;; py_items j) ;;
      bs <- foldM (fun acc tb => b <- Book_from_dict (snd tb) ;;
                                 ret (PyDict.set (fst tb) b acc)) bi PyDict.empty ;;
      set_books bs ;;
      ui <- (j <- py_get data "users" (JDict []) ;; py_items j) ;;
      us <- foldM (fun acc iu => u <- User_from_dict (snd iu) ;;
                                 ret (PyDict.set (fst iu) u acc)) ui PyDict.empty ;;
      set_users us ;;
      tl <- (j <- py_get data "transactions" (JList []) ;; py_iter j) ;;
      ts <- mapM Transaction_from_dict tl ;;
      set_transactions ts ;;
      ret true
  end.

(** A fresh process: [lib = Library()] over the world as it is. *)
Definition fresh_state (w : World) : State := mkState Library_init w.


(* ===================================================================== *)
(** ** Runs of the program, invariants *)
(* ===================================================================== *)

(** The calls the menu can make on the store. *)
Inductive call : Type :=
| AddBook (title author genre : string) (quantity : Z)
| RemoveBook (title : string)
| AddUser (name contact : string)
| RemoveUser (user_id : string)
| IssueBook (user_id title : string)
| ReturnBook (user_id title : string)
| Save (filename : string)
| Load (filename : string)
| Restart.                       (* the process ends and is started again *)

(** The state a call leaves, whether it returns or raises. *)
Definition exec (c : call) (st : State) : State :=
  match c with
  | AddBook t a g q => snd (add_book t a g q st)
  | RemoveBook t => snd (remove_book t st)
  | AddUser n c => snd (add_user n c st)
  | RemoveUser i => snd (remove_user i st)
  | IssueBook i t => snd (issue_book i t st)
  | ReturnBook i t => snd (return_book i t st)
  | Save f => snd (save_to_file f st)
  | Load f => snd (load_from_file f st)
  | Restart => fresh_state (world st)
  end.

(** Calls that only touch the catalog, the users and the loans; the menu
    passes [add_book] a quantity that is not negative. *)
Definition catalog_call (c : call) : Prop :=
  match c with
  | AddBook _ _ _ q => 0 <= q
  | RemoveBook _ | AddUser _ _ | RemoveUser _ | IssueBook _ _ | ReturnBook _ _ => True
  | Save _ | Load _ | Restart => False
  end.

(** States reached from the empty store by catalog calls, under any clock
    and identifier source. *)
Inductive reachable : State -> Prop :=
| reach_init w : reachable (fresh_state w)
| reach_step st c : reachable st -> catalog_call c -> reachable (exec c st).

(** States reached from the empty store on an empty disk by any calls: every
    file that [load_from_file] finds was written by [save_to_file]. *)
Definition empty_disk (w : World) : Prop := forall f, disk w f = None.

Inductive reachable_io : State -> Prop :=
| reach_io_init w : empty_disk w -> reachable_io (fresh_state w)
| reach_io_step st c : reachable_io st -> reachable_io (exec c st).

Definition quantities_nonneg (s : Library) : Prop :=
  forall t b, In (t, b) (books s) -> 0 <= b_quantity b.

Definition key_coherent (s : Library) : Prop :=
  (forall t b, In (t, b) (books s) -> b_title b = t)
  /\ (forall i u, In (i, u) (users s) -> u_id u = i).

(** What the classes guarantee of a store: a dict holds a key once, and a
    Transaction built by its constructor has a date that is not empty. *)
Definition Library_ok (s : Library) : Prop :=
  PyDict.wf (books s) /\ PyDict.wf (users s)
  /\ (forall t, In t (transactions s) -> t_date t <> EmptyString)
  /\ (forall i u, In (i, u) (users s) -> PyDict.wf (u_borrowed u)).

(** *** The store that a saved file gives back *)

(** No place of the [str] holds a high surrogate followed by a low one. *)
Fixpoint pair_free (s : string) : bool :=
  match s with
  | EmptyString => true
  | String _ s' =>
      match surrogate_pair s with
      | Some _ => false
      | None => pair_free s'
      end
  end.

(** The integers of the store have at most 4300 digits. *)
Definition ints_fit (s : Library) : bool :=
  forallb (fun b => int_fits (b_quantity b) && int_fits (b_issued_count b))
          (PyDict.values (books s)).

(** No key and no field of the store holds a surrogate pair. *)
Definition Book_pair_free (tb : string * Book) : bool :=
  pair_free (fst tb) && pair_free (b_title (snd tb))
  && pair_free (b_author (snd tb)) && pair_free (b_genre (snd tb)).

Definition User_pair_free (iu : string * User) : bool :=
  pair_free (fst iu) && pair_free (u_id (snd iu))
  && pair_free (u_name (snd iu)) && pair_free (u_contact (snd iu))
  && forallb (fun td => pair_free (fst td) && pair_free (snd td))
             (PyDict.items (u_borrowed (snd iu))).

Definition Transaction_pair_free (t : Transaction) : bool :=
  pair_free (t_user_id t) && pair_free (t_book_title t)
  && pair_free (t_action t) && pair_free (t_date t).

Definition pairs_free (s : Library) : bool :=
  forallb Book_pair_free (PyDict.items (books s))
  && forallb User_pair_free (PyDict.items (users s))
  && forallb Transaction_pair_free (transactions s).

(** The records as a file gives them back *)
Definition Book_reread (b : Book) : Book :=
  mkBook (join_surrogates (b_title b)) (join_surrogates (b_author b))
         (join_surrogates (b_genre b)) (b_quantity b) (b_issued_count b).

Definition User_reread (u : User) : User :=
  mkUser (join_surrogates (u_id u)) (join_surrogates (u_name u))
         (join_surrogates (u_contact u))
         (PyDict.of_items
            (map (fun td => (join_surrogates (fst td), join_surrogates (snd td)))
                 (PyDict.items (u_borrowed u)))).

Definition Transaction_reread (t : Transaction) : Transaction :=
  mkTransaction (join_surrogates (t_user_id t)) (join_surrogates (t_book_title t))
                (join_surrogates (t_action t)) (join_surrogates (t_date t)).

Definition reread (s : Library) : Library :=
  mkLibrary
    (PyDict.of_items
       (map (fun tb => (join_surrogates (fst tb), Book_reread (snd tb)))
            (PyDict.items (books s))))
    (PyDict.of_items
       (map (fun iu => (join_surrogates (fst iu), User_reread (snd iu)))
            (PyDict.items (users s))))
    (map Transaction_reread (transactions s)).

(** *** The overdue list in the words of the specification *)

(** The (user, title, due) triples of the store in iteration order: users
    in the order of the dict, then the borrowed entries of each user. *)
Definition loans (s : Library) : list (User * string * string) :=
  flat_map (fun u => map (fun item => (u, fst item, snd item))
                         (PyDict.items (u_borrowed u)))
           (PyDict.values (users s)).

(** One date is strictly before another, the time of day left out: the
    order of (year, month, day). *)
Definition earlier (d1 d2 : date) : Prop :=
  year d1 < year d2
  \/ (year d1 = year d2
      /\ (month d1 < month d2 \/ (month d1 = month d2 /\ day d1 < day d2))).

Definition earlier_dec (d1 d2 : date) : bool :=
  (year d1 <? year d2)
  || ((year d1 =? year d2)
      && ((month d1 <? month d2)
          || ((month d1 =? month d2) && (day d1 <? day d2)))).

(** The record {user_id, name, book, due} of a loan *)
Definition loan_entry (loan : User * string * string) : json :=
  let '(u, title, due) := loan in
  JDict [("user_id", JStr (u_id u)); ("name", JStr (u_name u));
         ("book", JStr title); ("due", JStr due)].

(** A loan is overdue on [today] when the date that [fromisoformat] reads
    of its due date, or else the date that [strptime] reads of it, is
    strictly before [today]. *)
Definition overdue_loan (fromisoformat strptime_ymd : string -> option datetime)
    (today : date) (loan : User * string * string) : bool :=
  match fromisoformat (snd loan) with
  | Some dt => earlier_dec (dt_date dt) today
  | None =>
      match strptime_ymd (snd loan) with
      | Some dt => earlier_dec (dt_date dt) today
      | None => false
      end
  end.

(** *** The loops of [generate_report] in closed form *)

Definition is_overdue (parse : string -> option date) (today : date)
    (loan : User * string * string) : bool :=
  match parse (snd loan) with
  | Some d => date_ltb d today
  | None => false
  end.

Definition entry_of (loan : User * string * string) : json :=
  overdue_entry (fst (fst loan)) (snd (fst loan)) (snd loan).

Definition overdue_spec (parse : string -> option date) (today : date)
    (s : Library) : list json :=
  map entry_of (filter (is_overdue parse today) (loans s)).

(** *** A parser for the form YYYY-MM-DD *)

(** The strings [date_isoformat] writes are read by both parsers of the
    standard library in every version; [parse_ymd] reads exactly these. *)
Definition digit_val (c : ascii) : option Z :=
  let n := Z.of_N (N_of_ascii c) in
  if (48 <=? n) && (n <=? 57) then Some (n - 48) else None.

Fixpoint number (cs : list ascii) (acc : Z) : option Z :=
  match cs with
  | [] => Some acc
  | c :: cs' =>
      match digit_val c with
      | Some v => number cs' (acc * 10 + v)
      | None => None
      end
  end.

Definition parse_ymd (s : string) : option datetime :=
  match list_ascii_of_string s with
  | [y1; y2; y3; y4; "-"%char; m1; m2; "-"%char; d1; d2] =>
      match number [y1; y2; y3; y4] 0, number [m1; m2] 0, number [d1; d2] 0 with
      | Some y, Some m, Some d =>
          if (1 <=? y) && (1 <=? m) && (m <=? 12)
             && (1 <=? d) && (d <=? _days_in_month y m)
          then Some (mkdatetime (mkdate y m d) 0 0 0 0)
          else None
      | _, _, _ => None
      end
  | _ => None
  end.

(** *** The states the methods leave *)

(** The world after [n] more reads of the clock *)
Definition tick (n : nat) (w : World) : World :=
  mkWorld (clock w) (n + clock_reads w) (uuids w) (uuid_draws w) (disk w).

(** The current time: what the next call of [utcnow] returns *)
Definition now (st : State) : datetime := clock (world st) (clock_reads (world st)).

(** The state after a successful [issue_book] *)
Definition issued (user_id title : string) (u : User) (b : Book)
    (due : string) (st : State) : State :=
  mkState
    (mkLibrary
       (PyDict.set title
          (mkBook (b_title b) (b_author b) (b_genre b)
                  (b_quantity b - 1) (b_issued_count b + 1))
          (books (self st)))
       (PyDict.set user_id
          (with_borrowed (PyDict.set title due (u_borrowed u)) u)
          (users (self st)))
       (transactions (self st)
        ++ [mkTransaction user_id title "issue"
              (datetime_isoformat (clock (world st) (S (clock_reads (world st)))))])%list)
    (tick 2 (world st)).


(** The state after a successful [return_book] *)
Definition returned (user_id title : string) (u : User) (st : State) : State :=
  mkState
    (mkLibrary
       (match PyDict.get title (books (self st)) with
        | Some b =>
            PyDict.set title
              (mkBook (b_title b) (b_author b) (b_genre b)
                      (b_quantity b + 1) (b_issued_count b))
              (books (self st))
        | None =>
            PyDict.set title (mkBook title "Unknown" "Unknown" 1 0) (books (self st))
        end)
       (PyDict.set user_id
          (with_borrowed (PyDict.remove title (u_borrowed u)) u)
          (users (self st)))
       (transactions (self st)
        ++ [mkTransaction user_id title "return" (datetime_isoformat (now st))])%list)
    (tick 1 (world st)).

(** The state after [add_book] *)
Definition book_added (title author genre : string) (quantity : Z)
    (st : State) : State :=
  mkState
    (mkLibrary
       (match PyDict.get title (books (self st)) with
        | Some b =>
            PyDict.set title
              (mkBook (b_title b) (b_author b) (b_genre b)
                      (b_quantity b + quantity) (b_issued_count b))
              (books (self st))
        | None =>
            PyDict.set title (mkBook title author genre quantity 0) (books (self st))
        end)
       (users (self st)) (transactions (self st)))
    (world st).

(** The world after one more identifier was drawn *)
Definition drawn (w : World) : World :=
  mkWorld (clock w) (clock_reads w) (uuids w) (S (uuid_draws w)) (disk w).

(** The next identifier: what the next [uuid.uuid4()] gives *)
Definition next_id (st : State) : string := uuids (world st) (uuid_draws (world st)).

(** The world after [n] more identifiers were drawn *)
Definition draws (n : nat) (w : World) : World :=
  mkWorld (clock w) (clock_reads w) (uuids w) (n + uuid_draws w) (disk w).

(** The world after [filename] was written *)
Definition written (filename : string) (c : file) (w : World) : World :=
  mkWorld (clock w) (clock_reads w) (uuids w) (uuid_draws w)
          (fun f => if String.eqb f filename then Some c else disk w f).

(** Every file of the disk was left by [save_to_file]: it holds the
    beginning of a text, or the snapshot of a store that the classes could
    have built and whose keys agree with the records. *)
Definition disk_saved (w : World) : Prop :=
  forall f c, disk w f = Some c ->
    c = NotJson
    \/ exists s, Library_ok s /\ key_coherent s /\ c = Doc (snapshot s).

Definition io_invariant (st : State) : Prop :=
  Library_ok (self st) /\ key_coherent (self st) /\ disk_saved (world st).

(** The report that [generate_report] returns when every due date is read *)
Definition report_of (parse : string -> option date) (st : State) : Report :=
  let s := self st in
  mkReport (sum_Z (map b_quantity (PyDict.values (books s))))
           (Z.of_nat (List.length (books s)))
           (Z.of_nat (List.length (users s)))
           (map Book_to_dict (popular_books s))
           (overdue_spec parse (dt_date (now st)) s).

Definition readable (parse : string -> option date)
    (loan : User * string * string) : bool :=
  match parse (snd loan) with Some _ => true | None => false end.

(** Descending order of the issue counts *)
Definition more_issued (a b : Book) : Prop := b_issued_count b <= b_issued_count a.

(** The books of a list with a given issue count, in the order of the list *)
Definition with_count (c : Z) (l : list Book) : list Book :=
  filter (fun b => b_issued_count b =? c) l.

(** *** Dates of the calendar *)

(** The dates a Python [date] can hold: 0001-01-01 .. 9999-12-31 *)
Definition valid_date (d : date) : Prop :=
  1 <= year d <= 9999 /\ 1 <= month d <= 12
  /\ 1 <= day d <= _days_in_month (year d) (month d).

(** [fmt_d w z] has [w] characters, which are the decimal digits of [z] *)
Definition reads_back (w : nat) (z : Z) : bool :=
  let s := fmt_d w z in
  Nat.eqb (String.length s) w
  && match number (list_ascii_of_string s) 0 with
     | Some v => v =? z
     | None => false
     end.

Fixpoint all_below (f : Z -> bool) (n : nat) : bool :=
  match n with
  | O => true
  | S k => f (Z.of_nat k) && all_below f k
  end.


(** Every due date of the store is the ISO form of a date of the calendar,
    in the memory and in the files. *)
Definition dues_iso (s : Library) : Prop :=
  forall i u t due, In (i, u) (users s) -> In (t, due) (u_borrowed u) ->
    exists d, valid_date d /\ due = date_isoformat d.

Definition dues_invariant (st : State) : Prop :=
  dues_iso (self st)
  /\ forall f c, disk (world st) f = Some c ->
       c = NotJson
       \/ exists s, Library_ok s /\ dues_iso s /\ c = Doc (snapshot s).

(** *** A sample world and sample runs *)

Definition DATA_FILE : string := "library_data.json".

(** The clock starts on 2024-02-20 and every reading is a week after the
    one before; the disk is empty. *)
Definition sample_world : World :=
  mkWorld (fun i => mkdatetime (fromordinal (738936 + 7 * Z.of_nat i)) 9 30 0 0) 0
          (fun i => "user-" ++ digits (Z.of_nat i)) 0
          (fun _ => None).

Definition sample_book : Book := mkBook "Dune" "Frank Herbert" "SF" 1 0.

Definition sample_user : User := mkUser "user-0" "Ann" "ann@example.org" [].

(** Catalog with "Dune" (one copy) and one registered user *)
Definition sample_state : State :=
  exec (AddUser "Ann" "ann@example.org")
       (exec (AddBook "Dune" "Frank Herbert" "SF" 1) (fresh_state sample_world)).

(** ... after "Dune" was issued to the user (due 2024-03-05) *)
Definition issued_state : State := exec (IssueBook "user-0" "Dune") sample_state.

(** ... seen one clock reading later *)
Definition later_state : State :=
  mkState (self issued_state) (tick 1 (world issued_state)).

(** ... after the catalog lost "Dune" *)
Definition removed_state : State := exec (RemoveBook "Dune") issued_state.

(** ... saved, the process started again, and loaded *)
Definition reloaded_state : State :=
  exec (Load DATA_FILE) (exec Restart (exec (Save DATA_FILE) issued_state)).

(** The store after two calls of [add_book] with the largest quantity that
    [int] reads from a line: the quantity has 4301 digits. *)
Definition huge_state : State :=
  exec (AddBook "Dune" "Frank Herbert" "SF" (10 ^ 4300 - 1))
       (exec (AddBook "Dune" "Frank Herbert" "SF" (10 ^ 4300 - 1))
             (fresh_state sample_world)).

(** The two code units of U+1F600 as two characters of a [str]
    ("\ud83d\ude00" in Python), and the character itself *)
Definition grin_surrogates : string :=
  String (byte_of 237) (String (byte_of 160) (String (byte_of 189)
    (String (byte_of 237) (String (byte_of 184) (String (byte_of 128)
       EmptyString))))).

Definition grin : string := utf8_4 128512.

(** A catalog with one book whose title is the two surrogates *)
Definition grin_state : State :=
  exec (AddBook grin_surrogates "Frank Herbert" "SF" 1) (fresh_state sample_world).

(** Eleven books, the i-th issued [i mod 3] times *)
Definition shelf : dict Book :=
  map (fun i => let t := "book-" ++ digits i in (t, mkBook t "a" "g" 1 (i mod 3)))
      [0; 1; 2; 3; 4; 5; 6; 7; 8; 9; 10].

Definition shelf_state : State :=
  mkState (mkLibrary shelf [] []) sample_world.

(* ===================================================================== *)
(** ** Facts about dicts *)
(* ===================================================================== *)

Module PyDictFacts.
Import PyDict.

Section Facts.
Context {V : Type}.
Implicit Types (d : dict V) (k : string) (v : V).

Lemma mem_true_get k d : mem k d = true <-> exists v, get k d = Some v.
Proof.
  unfold mem. destruct (get k d) as [v|]; split; intros H; eauto.
  - discriminate.
  - destruct H as [v H]. discriminate.
Qed.

Lemma mem_false_get k d : mem k d = false <-> get k d = None.
Proof.
  unfold mem. destruct (get k d); split; intros H; congruence.
Qed.

Lemma get_In k v d : get k d = Some v -> In (k, v) d.
Proof.
  induction d as [|[k' v'] d IH]; simpl; [discriminate|].
  destruct (String.eqb_spec k' k) as [->|Hne]; intros H.
  - left. congruence.
  - right. auto.
Qed.

Lemma get_None_keys k d : get k d = None <-> ~ In k (keys d).
Proof.
  induction d as [|[k' v'] d IH]; simpl.
  - tauto.
  - destruct (String.eqb_spec k' k) as [->|Hne].
    + split; [discriminate | intros H; exfalso; auto].
    + rewrite IH. intuition congruence.
Qed.

Lemma mem_keys k d : mem k d = true <-> In k (keys d).
Proof.
  destruct (mem k d) eqn:E.
  - split; [intros _|reflexivity].
    apply mem_true_get in E as [v E]. apply get_In in E.
    apply (in_map fst) in E. exact E.
  - apply mem_false_get, get_None_keys in E. split; [discriminate|tauto].
Qed.

Lemma In_get k v d : wf d -> In (k, v) d -> get k d = Some v.
Proof.
  unfold wf. induction d as [|[k' v'] d IH]; simpl; [tauto|].
  intros Hnd [Heq|Hin]; inversion Hnd as [|? ? Hnotin Hnd']; subst.
  - inversion Heq; subst. now rewrite String.eqb_refl.
  - destruct (String.eqb_spec k' k) as [->|Hne]; [|auto].
    exfalso. apply Hnotin. apply (in_map fst) in Hin. exact Hin.
Qed.

Lemma keys_replace k v d : keys (replace k v d) = keys d.
Proof.
  unfold keys, replace. rewrite map_map. apply map_ext.
  intros [k' v']; simpl. now destruct (String.eqb k' k).
Qed.

Lemma get_replace_same k v d :
  mem k d = true -> get k (replace k v d) = Some v.
Proof.
  unfold mem. induction d as [|[k' v'] d IH]; simpl; [discriminate|].
  destruct (String.eqb_spec k' k) as [->|Hne]; simpl.
  - now rewrite String.eqb_refl.
  - intros H. destruct (String.eqb_spec k' k); [contradiction|auto].
Qed.

Lemma get_replace_other k k' v d :
  k' <> k -> get k' (replace k v d) = get k' d.
Proof.
  intros Hne. induction d as [|[k0 v0] d IH]; simpl; [reflexivity|].
  destruct (String.eqb_spec k0 k) as [->|Hne0]; simpl.
  - destruct (String.eqb_spec k k'); [congruence|exact IH].
  - now rewrite IH.
Qed.

Lemma mem_replace k k' v d : mem k' (replace k v d) = mem k' d.
Proof.
  destruct (mem k' d) eqn:E.
  - apply mem_keys. rewrite keys_replace. now apply mem_keys.
  - apply mem_false_get, get_None_keys. rewrite keys_replace.
    now apply get_None_keys, mem_false_get.
Qed.

Lemma replace_replace k v1 v2 d :
  replace k v2 (replace k v1 d) = replace k v2 d.
Proof.
  unfold replace. rewrite map_map. apply map_ext.
  intros [k' v']; simpl.
  destruct (String.eqb k' k) eqn:E; simpl; now rewrite E.
Qed.

Lemma get_app k d1 d2 :
  get k (d1 ++ d2)%list
  = match get k d1 with Some v => Some v | None => get k d2 end.
Proof.
  induction d1 as [|[k' v'] d1 IH]; simpl; [reflexivity|].
  now destruct (String.eqb k' k).
Qed.

Lemma set_present k v d : mem k d = true -> set k v d = replace k v d.
Proof. unfold set. now intros ->. Qed.

Lemma set_absent k v d : mem k d = false -> set k v d = (d ++ [(k, v)])%list.
Proof. unfold set. now intros ->. Qed.

Lemma get_set_same k v d : get k (set k v d) = Some v.
Proof.
  unfold set. destruct (mem k d) eqn:E.
  - now apply get_replace_same.
  - rewrite get_app. apply mem_false_get in E. rewrite E. simpl.
    now rewrite String.eqb_refl.
Qed.

Lemma get_set_other k k' v d : k' <> k -> get k' (set k v d) = get k' d.
Proof.
  intros Hne. unfold set. destruct (mem k d).
  - now apply get_replace_other.
  - rewrite get_app. destruct (get k' d); [reflexivity|]. simpl.
    destruct (String.eqb_spec k k'); congruence.
Qed.

Lemma mem_set_same k v d : mem k (set k v d) = true.
Proof. apply mem_true_get. exists v. apply get_set_same. Qed.

Lemma set_set k v1 v2 d : set k v2 (set k v1 d) = set k v2 d.
Proof.
  rewrite (set_present k v2 (set k v1 d)) by apply mem_set_same.
  unfold set. destruct (mem k d) eqn:E.
  - apply replace_replace.
  - unfold replace. rewrite map_app. simpl. rewrite String.eqb_refl. f_equal.
    rewrite <- (map_id d) at 2. apply map_ext_in. intros [k' v'] Hin. simpl.
    destruct (String.eqb_spec k' k) as [->|]; [|reflexivity].
    exfalso. apply mem_false_get, get_None_keys in E. apply E.
    apply (in_map fst) in Hin. exact Hin.
Qed.

Lemma keys_set_present k v d : mem k d = true -> keys (set k v d) = keys d.
Proof. intros H. rewrite set_present by exact H. apply keys_replace. Qed.

Lemma keys_set_absent k v d :
  mem k d = false -> keys (set k v d) = (keys d ++ [k])%list.
Proof.
  intros H. rewrite set_absent by exact H. unfold keys. now rewrite map_app.
Qed.

Lemma wf_set k v d : wf d -> wf (set k v d).
Proof.
  unfold wf. intros Hwf. destruct (mem k d) eqn:E.
  - now rewrite keys_set_present.
  - rewrite keys_set_absent by exact E.
    apply mem_false_get, get_None_keys in E.
    apply NoDup_app; [exact Hwf | repeat constructor; simpl; tauto |].
    intros x Hx [<-|[]]. contradiction.
Qed.

Lemma In_set k v k' v' d :
  In (k', v') (set k v d) -> (k' = k /\ v' = v) \/ In (k', v') d.
Proof.
  unfold set. destruct (mem k d).
  - unfold replace. rewrite in_map_iff. intros [[k0 v0] [Heq Hin]]. simpl in Heq.
    destruct (String.eqb_spec k0 k) as [->|Hne]; inversion Heq; subst; auto.
  - rewrite in_app_iff. simpl. intros [H|[H|[]]]; [auto|].
    inversion H; subst; auto.
Qed.

Lemma In_remove kv k d : In kv (remove k d) <-> In kv d /\ fst kv <> k.
Proof.
  unfold remove. rewrite filter_In.
  destruct (String.eqb_spec (fst kv) k); simpl; intuition congruence.
Qed.

Lemma get_remove_same k d : get k (remove k d) = None.
Proof.
  apply get_None_keys. unfold keys. rewrite in_map_iff.
  intros [kv [Hk Hin]]. apply In_remove in Hin. tauto.
Qed.

Lemma get_remove_other k k' d : k' <> k -> get k' (remove k d) = get k' d.
Proof.
  intros Hne. induction d as [|[k0 v0] d IH]; simpl; [reflexivity|].
  destruct (String.eqb_spec k0 k) as [->|Hne0]; simpl.
  - destruct (String.eqb_spec k k'); [congruence|exact IH].
  - now rewrite IH.
Qed.

Lemma wf_remove k d : wf d -> wf (remove k d).
Proof.
  unfold wf, keys, remove. induction d as [|[k0 v0] d IH]; simpl; [auto|].
  intros Hnd. inversion Hnd as [|? ? Hnotin Hnd']; subst.
  destruct (String.eqb k0 k); simpl; [auto|].
  constructor; [|auto].
  rewrite in_map_iff. intros [kv [Hk Hin]]. apply filter_In in Hin as [Hin _].
  apply Hnotin. rewrite <- Hk. now apply in_map.
Qed.

Lemma del_present k d : mem k d = true -> del k d = Some (remove k d).
Proof. unfold del. now intros ->. Qed.

Lemma fold_set_fresh (l : list (string * V)) : forall d,
  NoDup (keys d ++ keys l)%list ->
  fold_left (fun acc kv => set (fst kv) (snd kv) acc) l d = (d ++ l)%list.
Proof.
  induction l as [|[k v] l IH]; intros d Hnd; simpl.
  - now rewrite app_nil_r.
  - assert (Hk : mem k d = false).
    { apply mem_false_get, get_None_keys. intros Hin.
      apply NoDup_remove_2 in Hnd. apply Hnd. apply in_or_app. now left. }
    rewrite set_absent by exact Hk. rewrite IH.
    + now rewrite <- app_assoc.
    + unfold keys in *. rewrite map_app. simpl. rewrite <- app_assoc. exact Hnd.
Qed.

Lemma of_items_wf (l : list (string * V)) : wf l -> of_items l = l.
Proof. intros H. unfold of_items. now rewrite fold_set_fresh. Qed.

Lemma fold_set_wf (l : list (string * V)) : forall d,
  wf d -> wf (fold_left (fun acc kv => set (fst kv) (snd kv) acc) l d).
Proof.
  induction l as [|[k v] l IH]; intros d Hd; simpl; [exact Hd|].
  apply IH. now apply wf_set.
Qed.

Lemma wf_of_items (l : list (string * V)) : wf (of_items l).
Proof. unfold of_items. apply fold_set_wf. constructor. Qed.

Lemma In_fold_set (l : list (string * V)) : forall d kv,
  In kv (fold_left (fun acc kv => set (fst kv) (snd kv) acc) l d) ->
  In kv d \/ In kv l.
Proof.
  induction l as [|[k v] l IH]; intros d [k' v'] Hin; simpl in *; [now left|].
  apply IH in Hin as [Hin|Hin]; [|now right; right].
  apply In_set in Hin as [[-> ->]|Hin]; [right; now left|now left].
Qed.

Lemma In_of_items (l : list (string * V)) kv : In kv (of_items l) -> In kv l.
Proof.
  unfold of_items. intros H. apply In_fold_set in H as [[]|H]. exact H.
Qed.

End Facts.

Section MapValues.
Context {V W : Type} (f : V -> W).

Let F (kv : string * V) : string * W := (fst kv, f (snd kv)).

Lemma get_map_values k (d : dict V) : get k (map F d) = option_map f (get k d).
Proof.
  induction d as [|[k' v'] d IH]; simpl; [reflexivity|].
  now destruct (String.eqb k' k).
Qed.

Lemma mem_map_values k (d : dict V) : mem k (map F d) = mem k d.
Proof. unfold mem. rewrite get_map_values. now destruct (get k d). Qed.

Lemma set_map_values k v (d : dict V) : set k (f v) (map F d) = map F (set k v d).
Proof.
  unfold set. rewrite mem_map_values. destruct (mem k d).
  - unfold replace. rewrite !map_map. apply map_ext.
    intros [k' v']. unfold F. simpl. now destruct (String.eqb k' k).
  - now rewrite map_app.
Qed.

Lemma fold_set_map_values (l : list (string * V)) : forall d,
  fold_left (fun acc kv => set (fst kv) (snd kv) acc) (map F l) (map F d)
  = map F (fold_left (fun acc kv => set (fst kv) (snd kv) acc) l d).
Proof.
  induction l as [|[k v] l IH]; intros d; simpl; [reflexivity|].
  rewrite set_map_values. apply IH.
Qed.

Lemma of_items_map_values (l : list (string * V)) :
  of_items (map (fun kv => (fst kv, f (snd kv))) l)
  = map (fun kv => (fst kv, f (snd kv))) (of_items l).
Proof. unfold of_items. apply (fold_set_map_values l []). Qed.

End MapValues.
End PyDictFacts.

Import PyDictFacts.

(* ===================================================================== *)
(** ** The calendar *)
(* ===================================================================== *)

Lemma is_leap_spec y :
  _is_leap y = true <-> (y mod 4 = 0 /\ (y mod 100 <> 0 \/ y mod 400 = 0)).
Proof.
  unfold _is_leap. rewrite andb_true_iff, orb_true_iff, negb_true_iff.
  rewrite !Z.eqb_eq, Z.eqb_neq. tauto.
Qed.

Lemma is_leap_decomposed n400 n100 n4 n1 :
  0 <= n100 <= 3 -> 0 <= n4 <= 24 -> 0 <= n1 <= 3 ->
  _is_leap (n400 * 400 + 1 + n100 * 100 + n4 * 4 + n1)
  = (n1 =? 3) && (negb (n4 =? 24) || (n100 =? 3)).
Proof.
  intros H100 H4 H1.
  apply eq_true_iff_eq. rewrite is_leap_spec.
  rewrite andb_true_iff, orb_true_iff, negb_true_iff, !Z.eqb_eq, Z.eqb_neq.
  split; intros H; Z.div_mod_to_equations; lia.
Qed.

Lemma days_before_year_decomposed n400 n100 n4 n1 :
  0 <= n100 <= 3 -> 0 <= n4 <= 24 -> 0 <= n1 <= 3 ->
  _days_before_year (n400 * 400 + 1 + n100 * 100 + n4 * 4 + n1)
  = 146097 * n400 + 36524 * n100 + 1461 * n4 + 365 * n1.
Proof.
  intros H100 H4 H1. unfold _days_before_year.
  Z.div_mod_to_equations; lia.
Qed.

Lemma months_of_day n :
  0 <= n <= 364 ->
  let m := Z.shiftr (n + 50) 5 in
  m = 1 \/ m = 2 \/ m = 3 \/ m = 4 \/ m = 5 \/ m = 6
  \/ m = 7 \/ m = 8 \/ m = 9 \/ m = 10 \/ m = 11 \/ m = 12.
Proof.
  intros Hn m. subst m. rewrite Z.shiftr_div_pow2 by lia.
  change (2 ^ 5) with 32. Z.div_mod_to_equations. lia.
Qed.

(** The date of an ordinal, from the quotients [_ord2ymd] computes *)
Lemma ord2ymd_body y n (leapyear : bool) :
  0 <= n <= 364 -> 1 <= y ->
  _is_leap y = leapyear ->
  let m := Z.shiftr (n + 50) 5 in
  let preceding :=
    tbl _DAYS_BEFORE_MONTH m + (if (2 <? m) && leapyear then 1 else 0) in
  let d :=
    if n <? preceding then
      mkdate y (m - 1)
        (n - (preceding
              - (tbl _DAYS_IN_MONTH (m - 1)
                 + (if (m - 1 =? 2) && leapyear then 1 else 0))) + 1)
    else mkdate y m (n - preceding + 1) in
  year d = y /\ 1 <= month d <= 12
  /\ 1 <= day d <= _days_in_month y (month d)
  /\ _days_before_month y (month d) + day d = n + 1.
Proof.
  intros Hn Hy Hleap m preceding d. subst d preceding.
  pose proof (months_of_day n Hn) as Hm. fold m in Hm.
  assert (Hdiv : 32 * m <= n + 50 < 32 * m + 32).
  { subst m. rewrite Z.shiftr_div_pow2 by lia. change (2 ^ 5) with 32.
    Z.div_mod_to_equations. lia. }
  unfold _days_in_month, _days_before_month. rewrite Hleap.
  clearbody m.
  destruct Hm as [Hm|[Hm|[Hm|[Hm|[Hm|[Hm|[Hm|[Hm|[Hm|[Hm|[Hm|Hm]]]]]]]]]]];
    subst m; destruct leapyear;
    match goal with |- context [n <? ?p] => destruct (Z.ltb_spec n p) end;
    cbn [year month day andb] in *;
    repeat match goal with
      | |- context [tbl ?l ?k] =>
          let a := fresh "a" in set (a := tbl l k) in *; vm_compute in a; subst a
      | H : context [tbl ?l ?k] |- _ =>
          let a := fresh "a" in set (a := tbl l k) in *; vm_compute in a; subst a
      end;
    repeat match goal with
      | |- context [?a <? ?b] => destruct (Z.ltb_spec a b)
      | |- context [?a =? ?b] => destruct (Z.eqb_spec a b)
      | H : context [?a <? ?b] |- _ => destruct (Z.ltb_spec a b)
      | H : context [?a =? ?b] |- _ => destruct (Z.eqb_spec a b)
      end;
    cbn [andb] in *; lia.
Qed.

Lemma ord2ymd_valid n :
  1 <= n <= _MAXORDINAL ->
  valid_date (_ord2ymd n)
  /\ _ymd2ord (year (_ord2ymd n)) (month (_ord2ymd n)) (day (_ord2ymd n)) = n.
Proof.
  unfold _MAXORDINAL. intros Hn. unfold _ord2ymd, _DI400Y, _DI100Y, _DI4Y.
  set (n0 := n - 1).
  set (n400 := n0 / 146097). set (r400 := n0 mod 146097).
  set (n100 := r400 / 36524). set (r100 := r400 mod 36524).
  set (n4 := r100 / 1461). set (r4 := r100 mod 1461).
  set (n1 := r4 / 365). set (r1 := r4 mod 365).
  assert (H400 : n0 = 146097 * n400 + r400 /\ 0 <= r400 < 146097)
    by (subst n400 r400; Z.div_mod_to_equations; lia).
  assert (H100 : r400 = 36524 * n100 + r100 /\ 0 <= r100 < 36524)
    by (subst n100 r100; Z.div_mod_to_equations; lia).
  assert (H4 : r100 = 1461 * n4 + r4 /\ 0 <= r4 < 1461)
    by (subst n4 r4; Z.div_mod_to_equations; lia).
  assert (H1 : r4 = 365 * n1 + r1 /\ 0 <= r1 < 365)
    by (subst n1 r1; Z.div_mod_to_equations; lia).
  assert (Hn0 : n0 = n - 1) by reflexivity.
  clearbody n400 r400 n100 r100 n4 r4 n1 r1 n0.
  assert (B400 : 0 <= n400 <= 24) by lia.
  assert (B100 : 0 <= n100 <= 4) by lia.
  assert (B4 : 0 <= n4 <= 24) by lia.
  assert (B1 : 0 <= n1 <= 4) by lia.
  destruct (Z.eqb_spec n1 4) as [E1|E1]; [|destruct (Z.eqb_spec n100 4) as [E100|E100]];
    cbn [orb].
  - (* the last day of a leap year, reached through n1 = 4 *)
    assert (Hleap : _is_leap (n400 * 400 + 1 + n100 * 100 + n4 * 4 + 3) = true).
    { rewrite is_leap_decomposed by lia.
      apply andb_true_iff. split; [reflexivity|].
      apply orb_true_iff.
      destruct (Z.eqb_spec n4 24); [right|left; reflexivity].
      apply Z.eqb_eq. lia. }
    unfold valid_date, _ymd2ord, _days_in_month, _days_before_month.
    cbn [year month day].
    replace (n400 * 400 + 1 + n100 * 100 + n4 * 4 + n1 - 1)
      with (n400 * 400 + 1 + n100 * 100 + n4 * 4 + 3) by lia.
    rewrite Hleap, days_before_year_decomposed by lia.
    change (tbl _DAYS_IN_MONTH 12) with 31.
    change (tbl _DAYS_BEFORE_MONTH 12) with 334.
    change (12 =? 2) with false. change (2 <? 12) with true. cbn [andb].
    lia.
  - (* the last day of a 400-year cycle, reached through n100 = 4 *)
    assert (Hz : n4 = 0 /\ n1 = 0 /\ r1 = 0) by lia.
    destruct Hz as (-> & -> & ->).
    assert (Hleap : _is_leap (n400 * 400 + 1 + 3 * 100 + 24 * 4 + 3) = true)
      by (rewrite is_leap_decomposed by lia; reflexivity).
    unfold valid_date, _ymd2ord, _days_in_month, _days_before_month.
    cbn [year month day].
    replace (n400 * 400 + 1 + n100 * 100 + 0 * 4 + 0 - 1)
      with (n400 * 400 + 1 + 3 * 100 + 24 * 4 + 3) by lia.
    rewrite Hleap, days_before_year_decomposed by lia.
    change (tbl _DAYS_IN_MONTH 12) with 31.
    change (tbl _DAYS_BEFORE_MONTH 12) with 334.
    change (12 =? 2) with false. change (2 <? 12) with true. cbn [andb].
    lia.
  - set (y := n400 * 400 + 1 + n100 * 100 + n4 * 4 + n1).
    set (leapyear := (n1 =? 3) && (negb (n4 =? 24) || (n100 =? 3))).
    assert (Hleap : _is_leap y = leapyear)
      by (subst y leapyear; apply is_leap_decomposed; lia).
    assert (Hdby : _days_before_year y
                   = 146097 * n400 + 36524 * n100 + 1461 * n4 + 365 * n1)
      by (subst y; apply days_before_year_decomposed; lia).
    assert (Hy : 1 <= y <= 9999) by (subst y; lia).
    pose proof (ord2ymd_body y r1 leapyear ltac:(lia) ltac:(lia) Hleap) as Hb.
    cbv zeta in Hb.
    match type of Hb with
    | year ?d = _ /\ _ => set (d0 := d) in *
    end.
    destruct Hb as (Hyear & Hmonth & Hday & Hsum).
    unfold valid_date, _ymd2ord. rewrite Hyear.
    repeat split; try lia.
Qed.

Lemma days_before_year_mono y1 y2 :
  y1 < y2 ->
  _days_before_year y1 + 365 + (if _is_leap y1 then 1 else 0) <= _days_before_year y2.
Proof.
  intros H. unfold _days_before_year.
  destruct (_is_leap y1) eqn:E.
  - apply is_leap_spec in E. Z.div_mod_to_equations; lia.
  - assert (E' : ~ (y1 mod 4 = 0 /\ (y1 mod 100 <> 0 \/ y1 mod 400 = 0))).
    { rewrite <- is_leap_spec. congruence. }
    Z.div_mod_to_equations; lia.
Qed.

Ltac month_cases m :=
  let H := fresh "Hm" in
  assert (H : m = 1 \/ m = 2 \/ m = 3 \/ m = 4 \/ m = 5 \/ m = 6
              \/ m = 7 \/ m = 8 \/ m = 9 \/ m = 10 \/ m = 11 \/ m = 12) by lia;
  destruct H as [H|[H|[H|[H|[H|[H|[H|[H|[H|[H|[H|H]]]]]]]]]]]; subst m.

Ltac table_values :=
  repeat match goal with
    | |- context [tbl ?l ?k] =>
        let v := eval vm_compute in (tbl l k) in change (tbl l k) with v
    | H : context [tbl ?l ?k] |- _ =>
        let v := eval vm_compute in (tbl l k) in change (tbl l k) with v in H
    end.

Ltac tests_to_props :=
  repeat match goal with
    | |- context [?a <? ?b] => destruct (Z.ltb_spec a b)
    | |- context [?a =? ?b] => destruct (Z.eqb_spec a b)
    | H : context [?a <? ?b] |- _ => destruct (Z.ltb_spec a b)
    | H : context [?a =? ?b] |- _ => destruct (Z.eqb_spec a b)
    end; cbn [andb orb negb] in *.

Lemma month_span y m :
  1 <= m <= 12 ->
  0 <= _days_before_month y m
  /\ 28 <= _days_in_month y m <= 31
  /\ _days_before_month y m + _days_in_month y m
     <= 365 + (if _is_leap y then 1 else 0).
Proof.
  intros H. unfold _days_before_month, _days_in_month.
  month_cases m; destruct (_is_leap y); table_values; tests_to_props; lia.
Qed.

Lemma month_order y m1 m2 :
  1 <= m1 -> m1 < m2 -> m2 <= 12 ->
  _days_before_month y m1 + _days_in_month y m1 <= _days_before_month y m2.
Proof.
  intros H1 H12 H2. unfold _days_before_month, _days_in_month.
  assert (Hb : 1 <= m2 <= 12) by lia.
  month_cases m1; month_cases m2; try lia;
    destruct (_is_leap y); table_values; tests_to_props; lia.
Qed.

Lemma date_ltb_toordinal d1 d2 :
  valid_date d1 -> valid_date d2 ->
  date_ltb d1 d2 = true -> toordinal d1 < toordinal d2.
Proof.
  intros (Hy1 & Hm1 & Hd1) (Hy2 & Hm2 & Hd2) Hlt.
  unfold toordinal, _ymd2ord. unfold date_ltb in Hlt.
  pose proof (month_span (year d1) (month d1) Hm1) as (S1 & S2 & S3).
  pose proof (month_span (year d2) (month d2) Hm2) as (T1 & T2 & T3).
  tests_to_props; try discriminate.
  all: try (pose proof (days_before_year_mono (year d1) (year d2) ltac:(lia)); lia).
  all: replace (year d2) with (year d1) in * by lia.
  all: try (pose proof (month_order (year d1) (month d1) (month d2)
                          ltac:(lia) ltac:(lia) ltac:(lia)); lia).
  all: replace (month d2) with (month d1) in * by lia; lia.
Qed.

Lemma date_ltb_total d1 d2 :
  date_ltb d1 d2 = false -> d1 = d2 \/ date_ltb d2 d1 = true.
Proof.
  destruct d1 as [y1 m1 c1], d2 as [y2 m2 c2]. unfold date_ltb. simpl.
  intros H. tests_to_props; try discriminate; try (right; reflexivity).
  all: left; f_equal; lia.
Qed.

(** On dates of the calendar, [d1 < d2] is the order of the days. *)
Lemma date_ltb_ordinal d1 d2 :
  valid_date d1 -> valid_date d2 ->
  (date_ltb d1 d2 = true <-> toordinal d1 < toordinal d2).
Proof.
  intros V1 V2. split; [now apply date_ltb_toordinal|].
  intros Hlt. destruct (date_ltb d1 d2) eqn:E; [reflexivity|].
  apply date_ltb_total in E as [->|E]; [lia|].
  apply (date_ltb_toordinal d2 d1 V2 V1) in E. lia.
Qed.

(** [fromordinal] and [toordinal] are inverse on the calendar. *)
Lemma toordinal_range d :
  valid_date d -> 1 <= toordinal d <= _MAXORDINAL.
Proof.
  intros V. pose proof V as (Hy & Hm & Hd).
  pose proof (month_span (year d) (month d) Hm) as (S1 & S2 & S3).
  unfold toordinal, _ymd2ord. split.
  - assert (0 <= _days_before_year (year d)).
    { destruct (Z.eq_dec (year d) 1) as [->|Hne]; [vm_compute; discriminate|].
      pose proof (days_before_year_mono 1 (year d) ltac:(lia)) as H.
      change (_days_before_year 1) with 0 in H.
      destruct (_is_leap 1); lia. }
    lia.
  - destruct (Z.eq_dec (year d) 9999) as [E|Hne].
    + rewrite E in *. change (_days_before_year 9999) with 3651694.
      change (_is_leap 9999) with false in S3. cbv iota in S3.
      unfold _MAXORDINAL. lia.
    + pose proof (days_before_year_mono (year d) 9999 ltac:(lia)) as H.
      change (_days_before_year 9999) with 3651694 in H.
      unfold _MAXORDINAL. destruct (_is_leap (year d)); lia.
Qed.

Lemma ordinal_injective d1 d2 :
  valid_date d1 -> valid_date d2 -> toordinal d1 = toordinal d2 -> d1 = d2.
Proof.
  intros V1 V2 E.
  destruct (date_ltb d1 d2) eqn:E12.
  - apply (date_ltb_toordinal d1 d2 V1 V2) in E12. lia.
  - apply date_ltb_total in E12 as [H|H]; [exact H|].
    apply (date_ltb_toordinal d2 d1 V2 V1) in H. lia.
Qed.

Lemma fromordinal_toordinal d :
  valid_date d -> fromordinal (toordinal d) = d.
Proof.
  intros V. pose proof (toordinal_range d V) as Hr.
  destruct (ord2ymd_valid (toordinal d) Hr) as [V' E].
  apply ordinal_injective; [exact V'|exact V|]. exact E.
Qed.

Lemma toordinal_fromordinal n :
  1 <= n <= _MAXORDINAL ->
  valid_date (fromordinal n) /\ toordinal (fromordinal n) = n.
Proof. apply ord2ymd_valid. Qed.

Lemma all_below_spec f n :
  all_below f n = true -> forall z, 0 <= z < Z.of_nat n -> f z = true.
Proof.
  induction n as [|k IH]; intros H z Hz; [lia|].
  cbn [all_below] in H. apply andb_true_iff in H as [Hk Hrest].
  destruct (Z.eq_dec z (Z.of_nat k)) as [->|Hne]; [exact Hk|].
  apply IH; [exact Hrest|lia].
Qed.

Lemma four_digits z : 0 <= z <= 9999 -> reads_back 4 z = true.
Proof.
  intros H. apply (all_below_spec (reads_back 4) (Z.to_nat 10000)).
  - vm_compute. reflexivity.
  - rewrite Z2Nat.id; lia.
Qed.

Lemma two_digits z : 0 <= z <= 99 -> reads_back 2 z = true.
Proof.
  intros H. apply (all_below_spec (reads_back 2) (Z.to_nat 100)).
  - vm_compute. reflexivity.
  - rewrite Z2Nat.id; lia.
Qed.

Lemma reads_back_4 z :
  reads_back 4 z = true ->
  exists a b c e,
    fmt_d 4 z = String a (String b (String c (String e EmptyString)))
    /\ number [a; b; c; e] 0 = Some z.
Proof.
  unfold reads_back. intros H. apply andb_true_iff in H as [Hlen Hnum].
  apply Nat.eqb_eq in Hlen.
  destruct (fmt_d 4 z) as [|a [|b [|c [|e [|f s]]]]]; try discriminate.
  exists a, b, c, e. split; [reflexivity|].
  cbn [list_ascii_of_string] in Hnum.
  destruct (number [a; b; c; e] 0) as [v|]; [|discriminate].
  apply Z.eqb_eq in Hnum. now subst.
Qed.

Lemma reads_back_2 z :
  reads_back 2 z = true ->
  exists a b,
    fmt_d 2 z = String a (String b EmptyString) /\ number [a; b] 0 = Some z.
Proof.
  unfold reads_back. intros H. apply andb_true_iff in H as [Hlen Hnum].
  apply Nat.eqb_eq in Hlen.
  destruct (fmt_d 2 z) as [|a [|b [|c s]]]; try discriminate.
  exists a, b. split; [reflexivity|].
  cbn [list_ascii_of_string] in Hnum.
  destruct (number [a; b] 0) as [v|]; [|discriminate].
  apply Z.eqb_eq in Hnum. now subst.
Qed.

(** The ISO form of a date of the calendar has the shape YYYY-MM-DD and is
    read back as that date. *)
Lemma parse_date_isoformat d :
  valid_date d ->
  parse_ymd (date_isoformat d) = Some (mkdatetime d 0 0 0 0)
  /\ String.length (date_isoformat d) = 10%nat.
Proof.
  intros (Hy & Hm & Hd).
  assert (Hd' : day d <= 31)
    by (pose proof (month_span (year d) (month d) Hm); lia).
  destruct (reads_back_4 (year d) (four_digits (year d) ltac:(lia))) as (a & b & c & e & HY & NY).
  destruct (reads_back_2 (month d) (two_digits (month d) ltac:(lia))) as (m1 & m2 & HM & NM).
  destruct (reads_back_2 (day d) (two_digits (day d) ltac:(lia))) as (d1 & d2 & HD & ND).
  unfold date_isoformat. rewrite HY, HM, HD.
  split; [|reflexivity].
  unfold parse_ymd. cbn [append list_ascii_of_string].
  rewrite NY, NM, ND.
  replace ((1 <=? year d) && (1 <=? month d) && (month d <=? 12)
           && (1 <=? day d) && (day d <=? _days_in_month (year d) (month d)))
    with true.
  - destruct d. reflexivity.
  - symmetry. rewrite !andb_true_iff, !Z.leb_le. lia.
Qed.

(* ===================================================================== *)
(** ** The methods, run on a state *)
(* ===================================================================== *)

Lemma bind_ret {A B} (a : A) (k : A -> M B) st : bind (ret a) k st = k a st.
Proof. reflexivity. Qed.

Lemma bind_run {A B} (m : M A) (k : A -> M B) st a st' :
  m st = (Ret a, st') -> bind m k st = k a st'.
Proof. unfold bind. now intros ->. Qed.

Lemma bind_raise {A B} (m : M A) (k : A -> M B) st e st' :
  m st = (Raise e, st') -> bind m k st = (Raise e, st').
Proof. unfold bind. now intros ->. Qed.

Lemma mutate_book_run title f st b :
  PyDict.get title (books (self st)) = Some b ->
  mutate_book title f st
  = (Ret tt, mkState (mkLibrary (PyDict.set title (f b) (books (self st)))
                                (users (self st)) (transactions (self st)))
                     (world st)).
Proof.
  intros H. unfold mutate_book, bind, get_self, getitem. rewrite H. reflexivity.
Qed.

Lemma mutate_user_run user_id f st u :
  PyDict.get user_id (users (self st)) = Some u ->
  mutate_user user_id f st
  = (Ret tt, mkState (mkLibrary (books (self st))
                                (PyDict.set user_id (f u) (users (self st)))
                                (transactions (self st)))
                     (world st)).
Proof.
  intros H. unfold mutate_user, bind, get_self, getitem. rewrite H. reflexivity.
Qed.

Lemma Transaction_init_now user_id title action st :
  Transaction_init user_id title action None st
  = (Ret (mkTransaction user_id title action (datetime_isoformat (now st))),
     mkState (self st) (tick 1 (world st))).
Proof. reflexivity. Qed.

Lemma issue_book_run user_id title st :
  issue_book user_id title st
  = match PyDict.get user_id (users (self st)) with
    | None => (Ret (false, "User not found"), st)
    | Some u =>
        match PyDict.get title (books (self st)) with
        | None => (Ret (false, "Book not found"), st)
        | Some b =>
            if b_quantity b <=? 0 then (Ret (false, "No copies available"), st)
            else
              match add_days (now st) 14 with
              | None => (Raise OverflowError, mkState (self st) (tick 1 (world st)))
              | Some later =>
                  let due := date_isoformat (dt_date later) in
                  (Ret (true, "Issued. Due: " ++ due), issued user_id title u b due st)
              end
        end
    end.
Proof.
  unfold issue_book. rewrite bind_ret with (a := self st) || unfold bind at 1, get_self.
  unfold PyDict.mem.
  destruct (PyDict.get user_id (users (self st))) as [u|] eqn:Hu; simpl; [|reflexivity].
  destruct (PyDict.get title (books (self st))) as [b|] eqn:Hb; simpl; [|reflexivity].
  unfold bind at 1, getitem. rewrite Hb. simpl.
  destruct (b_quantity b <=? 0); [reflexivity|].
  unfold bind at 1, utcnow. simpl.
  unfold bind at 1, plus_days. fold (now st).
  destruct (add_days (now st) 14) as [later|]; [|reflexivity].
  simpl.
  unfold bind at 1. erewrite mutate_user_run by (simpl; exact Hu). simpl.
  unfold bind at 1. erewrite mutate_book_run by (simpl; exact Hb). simpl.
  unfold bind at 1. erewrite mutate_book_run by (simpl; apply get_set_same). simpl.
  rewrite set_set.
  reflexivity.
Qed.

Lemma return_book_run user_id title st :
  return_book user_id title st
  = match PyDict.get user_id (users (self st)) with
    | None => (Ret (false, "User not found"), st)
    | Some u =>
        match PyDict.get title (u_borrowed u) with
        | None => (Ret (false, "User did not borrow this book"), st)
        | Some _ => (Ret (true, "Returned"), returned user_id title u st)
        end
    end.
Proof.
  unfold return_book. unfold bind at 1, get_self.
  unfold PyDict.mem at 1.
  destruct (PyDict.get user_id (users (self st))) as [u|] eqn:Hu; simpl; [|reflexivity].
  unfold bind at 1, getitem. rewrite Hu. simpl.
  unfold PyDict.mem at 1.
  destruct (PyDict.get title (u_borrowed u)) as [due|] eqn:Hd; simpl; [|reflexivity].
  assert (Hm : PyDict.mem title (u_borrowed u) = true)
    by (apply mem_true_get; eauto).
  unfold bind at 1, delitem. rewrite (del_present _ _ Hm). simpl.
  unfold bind at 1. erewrite mutate_user_run by (simpl; exact Hu). simpl.
  unfold bind at 1, get_self. simpl.
  unfold returned, PyDict.mem.
  destruct (PyDict.get title (books (self st))) as [b|] eqn:Hb.
  - unfold bind at 1. erewrite mutate_book_run by (simpl; exact Hb). reflexivity.
  - reflexivity.
Qed.

Lemma add_book_run title author genre quantity st :
  add_book title author genre quantity st
  = (Ret tt, book_added title author genre quantity st).
Proof.
  unfold add_book, book_added. unfold bind at 1, get_self. unfold PyDict.mem.
  destruct (PyDict.get title (books (self st))) as [b|] eqn:Hb.
  - erewrite mutate_book_run by exact Hb. reflexivity.
  - reflexivity.
Qed.

Lemma remove_book_run title st :
  remove_book title st
  = if PyDict.mem title (books (self st))
    then (Ret true,
          mkState (mkLibrary (PyDict.remove title (books (self st)))
                             (users (self st)) (transactions (self st)))
                  (world st))
    else (Ret false, st).
Proof.
  unfold remove_book. unfold bind at 1, get_self.
  destruct (PyDict.mem title (books (self st))) eqn:Hm; [|reflexivity].
  unfold bind at 1, delitem. rewrite (del_present _ _ Hm). reflexivity.
Qed.

Lemma remove_user_run user_id st :
  remove_user user_id st
  = if PyDict.mem user_id (users (self st))
    then (Ret true,
          mkState (mkLibrary (books (self st))
                             (PyDict.remove user_id (users (self st)))
                             (transactions (self st)))
                  (world st))
    else (Ret false, st).
Proof.
  unfold remove_user. unfold bind at 1, get_self.
  destruct (PyDict.mem user_id (users (self st))) eqn:Hm; [|reflexivity].
  unfold bind at 1, delitem. rewrite (del_present _ _ Hm). reflexivity.
Qed.

Lemma add_user_run name contact st :
  add_user name contact st
  = (Ret (next_id st),
     mkState (mkLibrary (books (self st))
                (PyDict.set (next_id st)
                   (mkUser (next_id st) name contact PyDict.empty)
                   (users (self st)))
                (transactions (self st)))
             (drawn (world st))).
Proof. reflexivity. Qed.

(* ===================================================================== *)
(** ** issue_book *)
(* ===================================================================== *)

(** C1. When the user is registered, the title is in the catalog with a
    positive quantity (whether or not the user already holds the title) and
    the date 14 days from now exists in Python's calendar, [issue_book]
    returns [(True, "Issued. Due: <due>")] where [due] is the ISO form of
    today + 14 days (ten characters YYYY-MM-DD that read back as the date
    of the calendar whose day number is today's plus 14), and leaves
    exactly the state [issued]: the user's
    [borrowed[title]] is [due] (any earlier entry is overwritten, the other
    entries stay), the book's quantity is one less and its issued_count one
    more, one "issue" transaction for (user, title) is appended at the end
    of the log, and every other book, user and transaction is as before. *)
Theorem issue_book_success user_id title st u b :
  PyDict.get user_id (users (self st)) = Some u ->
  PyDict.get title (books (self st)) = Some b ->
  0 < b_quantity b ->
  0 < toordinal (dt_date (now st)) + 14 <= _MAXORDINAL ->
  let due := date_isoformat (fromordinal (toordinal (dt_date (now st)) + 14)) in
  let st' := issued user_id title u b due st in
  issue_book user_id title st = (Ret (true, "Issued. Due: " ++ due), st')
  /\ (let d := fromordinal (toordinal (dt_date (now st)) + 14) in
      valid_date d
      /\ toordinal d = toordinal (dt_date (now st)) + 14
      /\ String.length due = 10%nat
      /\ parse_ymd due = Some (mkdatetime d 0 0 0 0))
  /\ (exists u',
        PyDict.get user_id (users (self st')) = Some u'
        /\ u_id u' = u_id u /\ u_name u' = u_name u /\ u_contact u' = u_contact u
        /\ PyDict.get title (u_borrowed u') = Some due
        /\ forall t, t <> title ->
             PyDict.get t (u_borrowed u') = PyDict.get t (u_borrowed u))
  /\ (exists b',
        PyDict.get title (books (self st')) = Some b'
        /\ b_quantity b' = b_quantity b - 1
        /\ b_issued_count b' = b_issued_count b + 1
        /\ b_title b' = b_title b /\ b_author b' = b_author b
        /\ b_genre b' = b_genre b)
  /\ (exists tx,
        transactions (self st') = (transactions (self st) ++ [tx])%list
        /\ t_user_id tx = user_id /\ t_book_title tx = title
        /\ t_action tx = "issue")
  /\ (forall t, t <> title ->
        PyDict.get t (books (self st')) = PyDict.get t (books (self st)))
  /\ (forall i, i <> user_id ->
        PyDict.get i (users (self st')) = PyDict.get i (users (self st)))
  /\ PyDict.keys (books (self st')) = PyDict.keys (books (self st))
  /\ PyDict.keys (users (self st')) = PyDict.keys (users (self st)).
Proof.
  intros Hu Hb Hq Hrange due st'.
  assert (Hmu : PyDict.mem user_id (users (self st)) = true)
    by (apply mem_true_get; eauto).
  assert (Hmb : PyDict.mem title (books (self st)) = true)
    by (apply mem_true_get; eauto).
  split; [|split; [|repeat split]].
  - rewrite issue_book_run, Hu, Hb.
    destruct (Z.leb_spec (b_quantity b) 0) as [Hle|_]; [lia|].
    unfold add_days.
    replace ((0 <? toordinal (dt_date (now st)) + 14)
             && (toordinal (dt_date (now st)) + 14 <=? _MAXORDINAL)) with true.
    + reflexivity.
    + symmetry. apply andb_true_iff. split; [apply Z.ltb_lt | apply Z.leb_le]; lia.
  - cbv zeta.
    destruct (toordinal_fromordinal (toordinal (dt_date (now st)) + 14))
      as [Hvalid Hord]; [lia|].
    destruct (parse_date_isoformat _ Hvalid) as [Hparse Hlen].
    repeat split; try assumption; apply Hvalid.
  - eexists. simpl. rewrite get_set_same. repeat split.
    + simpl. apply get_set_same.
    + intros t Ht. simpl. now apply get_set_other.
  - eexists. simpl. rewrite get_set_same. repeat split.
  - eexists. simpl. repeat split.
  - intros t Ht. simpl. now apply get_set_other.
  - intros i Hi. simpl. now apply get_set_other.
  - simpl. now apply keys_set_present.
  - simpl. now apply keys_set_present.
Qed.

(** C2. [issue_book] tests its preconditions in a fixed order and the first
    one that fails decides: an unknown user gives "User not found";
    otherwise a title that is not in the catalog gives "Book not found";
    otherwise a quantity of 0 or less gives "No copies available".  Each of
    them is returned as [(False, message)], nothing is raised, and the
    whole state is the one before the call.  Conversely a [(False, _)]
    result only comes from one of these three, and the only exception that
    can leave the method (the date overflow of the clock) leaves the store
    unchanged as well. *)
Theorem issue_book_failure user_id title st :
  (PyDict.mem user_id (users (self st)) = false ->
     issue_book user_id title st = (Ret (false, "User not found"), st))
  /\ (PyDict.mem user_id (users (self st)) = true ->
      PyDict.mem title (books (self st)) = false ->
     issue_book user_id title st = (Ret (false, "Book not found"), st))
  /\ (forall b,
      PyDict.mem user_id (users (self st)) = true ->
      PyDict.get title (books (self st)) = Some b ->
      b_quantity b <= 0 ->
     issue_book user_id title st = (Ret (false, "No copies available"), st))
  /\ (forall msg st',
      issue_book user_id title st = (Ret (false, msg), st') ->
      st' = st
      /\ ((PyDict.mem user_id (users (self st)) = false /\ msg = "User not found")
          \/ (PyDict.mem user_id (users (self st)) = true
              /\ PyDict.mem title (books (self st)) = false
              /\ msg = "Book not found")
          \/ (exists b,
                PyDict.mem user_id (users (self st)) = true
                /\ PyDict.get title (books (self st)) = Some b
                /\ b_quantity b <= 0
                /\ msg = "No copies available")))
  /\ (forall e st',
      issue_book user_id title st = (Raise e, st') ->
      e = OverflowError /\ self st' = self st).
Proof.
  rewrite issue_book_run. unfold PyDict.mem.
  destruct (PyDict.get user_id (users (self st))) as [u|] eqn:Hu.
  2:{ repeat split; try discriminate; try congruence.
      left. split; congruence. }
  destruct (PyDict.get title (books (self st))) as [b|] eqn:Hb.
  2:{ repeat split; try discriminate; try congruence.
      right; left. repeat split; congruence. }
  destruct (Z.leb_spec (b_quantity b) 0) as [Hle|Hgt].
  { repeat split; try discriminate; try congruence.
    right; right. exists b. repeat split; congruence. }
  split; [discriminate|]. split; [discriminate|].
  split; [intros b0 _ Hb0 Hq; inversion Hb0; subst; lia|].
  destruct (add_days (now st) 14) as [later|]; simpl.
  - split; intros; discriminate.
  - split; [intros; discriminate|].
    intros e st' H. inversion H; subst. split; reflexivity.
Qed.

(* ===================================================================== *)
(** ** return_book *)
(* ===================================================================== *)

(** C3. [return_book] returns [(False, "User not found")] for an unknown
    user and [(False, "User did not borrow this book")] when the title is
    not in the user's [borrowed] dict, leaving the state as it was.  When
    both hold it returns [(True, "Returned")] and leaves exactly the state
    [returned]: the user's entry for the title is gone and the other
    entries stay; a title that is in the catalog has its quantity raised by
    one and its issued_count kept; a title that is not gets a new record
    (title, "Unknown", "Unknown", quantity 1, issued_count 0) at the end of
    the catalog; one "return" transaction is appended at the end of the
    log; every other book and user is as before. *)
Theorem return_book_spec user_id title st :
  (PyDict.mem user_id (users (self st)) = false ->
     return_book user_id title st = (Ret (false, "User not found"), st))
  /\ (forall u,
      PyDict.get user_id (users (self st)) = Some u ->
      PyDict.mem title (u_borrowed u) = false ->
      return_book user_id title st
      = (Ret (false, "User did not borrow this book"), st))
  /\ (forall u,
      PyDict.get user_id (users (self st)) = Some u ->
      PyDict.mem title (u_borrowed u) = true ->
      let st' := returned user_id title u st in
      return_book user_id title st = (Ret (true, "Returned"), st')
      /\ (exists u',
            PyDict.get user_id (users (self st')) = Some u'
            /\ u_id u' = u_id u /\ u_name u' = u_name u
            /\ u_contact u' = u_contact u
            /\ PyDict.get title (u_borrowed u') = None
            /\ forall t, t <> title ->
                 PyDict.get t (u_borrowed u') = PyDict.get t (u_borrowed u))
      /\ (forall b,
            PyDict.get title (books (self st)) = Some b ->
            PyDict.get title (books (self st'))
            = Some (mkBook (b_title b) (b_author b) (b_genre b)
                           (b_quantity b + 1) (b_issued_count b))
            /\ PyDict.keys (books (self st')) = PyDict.keys (books (self st)))
      /\ (PyDict.get title (books (self st)) = None ->
            books (self st')
            = (books (self st) ++ [(title, mkBook title "Unknown" "Unknown" 1 0)])%list
            /\ PyDict.get title (books (self st'))
               = Some (mkBook title "Unknown" "Unknown" 1 0))
      /\ transactions (self st')
         = (transactions (self st)
            ++ [mkTransaction user_id title "return" (datetime_isoformat (now st))])%list
      /\ (forall t, t <> title ->
            PyDict.get t (books (self st')) = PyDict.get t (books (self st)))
      /\ (forall i, i <> user_id ->
            PyDict.get i (users (self st')) = PyDict.get i (users (self st)))
      /\ PyDict.keys (users (self st')) = PyDict.keys (users (self st))).
Proof.
  rewrite return_book_run. split; [|split].
  - intros Hm. apply mem_false_get in Hm. now rewrite Hm.
  - intros u Hu Hm. apply mem_false_get in Hm. now rewrite Hu, Hm.
  - intros u Hu Hm st'. rewrite Hu.
    assert (Hmu : PyDict.mem user_id (users (self st)) = true)
      by (apply mem_true_get; eauto).
    destruct (proj1 (mem_true_get _ _) Hm) as [due Hdue]. rewrite Hdue.
    split; [reflexivity|]. split; [|split; [|split; [|split; [|split; [|split]]]]].
    + eexists. simpl. rewrite get_set_same. repeat split.
      * simpl. apply get_remove_same.
      * intros t Ht. simpl. now apply get_remove_other.
    + intros b Hb. simpl. rewrite Hb. rewrite get_set_same. split; [reflexivity|].
      apply keys_set_present. apply mem_true_get; eauto.
    + intros Hb. simpl. rewrite Hb. rewrite get_set_same. split; [|reflexivity].
      apply set_absent. now apply mem_false_get.
    + reflexivity.
    + intros t Ht. simpl.
      destruct (PyDict.get title (books (self st))); now apply get_set_other.
    + intros i Hi. simpl. now apply get_set_other.
    + simpl. now apply keys_set_present.
Qed.

(* ===================================================================== *)
(** ** add_book *)
(* ===================================================================== *)

(** C8. [add_book] raises nothing and returns [None].  For a title that is
    not in the catalog it appends the record (title, author, genre,
    quantity, issued_count 0); for a title that is in the catalog it adds
    the quantity to the record and keeps its title, author, genre and
    issued_count, whatever author and genre were passed, and the record
    stays where it was.  No other book, no user, no transaction and nothing
    outside the store changes.  This holds for every integer quantity, so
    for every non-negative one. *)
Theorem add_book_spec title author genre quantity st :
  let st' := book_added title author genre quantity st in
  add_book title author genre quantity st = (Ret tt, st')
  /\ (PyDict.get title (books (self st)) = None ->
        books (self st')
        = (books (self st) ++ [(title, mkBook title author genre quantity 0)])%list
        /\ PyDict.get title (books (self st'))
           = Some (mkBook title author genre quantity 0))
  /\ (forall b,
        PyDict.get title (books (self st)) = Some b ->
        PyDict.get title (books (self st'))
        = Some (mkBook (b_title b) (b_author b) (b_genre b)
                       (b_quantity b + quantity) (b_issued_count b))
        /\ PyDict.keys (books (self st')) = PyDict.keys (books (self st)))
  /\ (forall t, t <> title ->
        PyDict.get t (books (self st')) = PyDict.get t (books (self st)))
  /\ users (self st') = users (self st)
  /\ transactions (self st') = transactions (self st)
  /\ world st' = world st.
Proof.
  intros st'. split; [apply add_book_run|].
  split; [|split; [|split; [|repeat split]]].
  - intros Hb. simpl. rewrite Hb. rewrite get_set_same. split; [|reflexivity].
    apply set_absent. now apply mem_false_get.
  - intros b Hb. simpl. rewrite Hb. rewrite get_set_same. split; [reflexivity|].
    apply keys_set_present. apply mem_true_get; eauto.
  - intros t Ht. simpl.
    destruct (PyDict.get title (books (self st))); now apply get_set_other.
Qed.

(* ===================================================================== *)
(** ** The text of a saved file *)
(* ===================================================================== *)

Lemma join_nonempty s : join_surrogates s = EmptyString -> s = EmptyString.
Proof.
  destruct s as [|c s]; [reflexivity|]. unfold join_surrogates. cbn [join_from].
  destruct (surrogate_pair (String c s)); discriminate.
Qed.

Lemma pair_free_join s : pair_free s = true -> join_surrogates s = s.
Proof.
  unfold join_surrogates. induction s as [|c s IH]; [reflexivity|].
  cbn [pair_free join_from].
  destruct (surrogate_pair (String c s)); [discriminate|].
  intros H. now rewrite IH.
Qed.

Lemma surrogate_pair_lead c s :
  byte_val c <> 237 -> surrogate_pair (String c s) = None.
Proof.
  intros H. destruct s as [|b [|c' [|d [|e [|f s]]]]]; try reflexivity.
  unfold surrogate_pair. apply Z.eqb_neq in H. now rewrite H.
Qed.

Lemma pair_free_bytes s :
  Forall (fun c => byte_val c <> 237) (list_ascii_of_string s) ->
  pair_free s = true.
Proof.
  induction s as [|c s IH]; [reflexivity|].
  cbn [list_ascii_of_string]. intros H. inversion H; subst.
  cbn [pair_free]. rewrite surrogate_pair_lead by assumption. auto.
Qed.

Lemma digit_byte c v : digit_val c = Some v -> byte_val c <> 237.
Proof.
  unfold digit_val, byte_val.
  destruct (Z.leb_spec 48 (Z.of_N (N_of_ascii c))); [|discriminate].
  destruct (Z.leb_spec (Z.of_N (N_of_ascii c)) 57); [|discriminate].
  intros _. lia.
Qed.

Lemma number_bytes cs : forall acc z,
  number cs acc = Some z -> Forall (fun c => byte_val c <> 237) cs.
Proof.
  induction cs as [|c cs IH]; intros acc z H; [constructor|].
  cbn [number] in H. destruct (digit_val c) as [v|] eqn:E; [|discriminate].
  constructor; [now apply (digit_byte c v)|now apply (IH (acc * 10 + v) z)].
Qed.

(** The due dates that [issue_book] writes are read back as they are. *)
Lemma date_isoformat_join d :
  valid_date d -> join_surrogates (date_isoformat d) = date_isoformat d.
Proof.
  intros (Hy & Hm & Hd).
  assert (Hd' : day d <= 31)
    by (pose proof (month_span (year d) (month d) Hm); lia).
  assert (Hy4 : 0 <= year d <= 9999) by lia.
  assert (Hm2 : 0 <= month d <= 99) by lia.
  assert (Hd2 : 0 <= day d <= 99) by lia.
  destruct (reads_back_4 (year d) (four_digits (year d) Hy4))
    as (a & b & c & e & HY & NY).
  destruct (reads_back_2 (month d) (two_digits (month d) Hm2))
    as (m1 & m2 & HM & NM).
  destruct (reads_back_2 (day d) (two_digits (day d) Hd2))
    as (d1 & d2 & HD & ND).
  apply pair_free_join, pair_free_bytes.
  unfold date_isoformat. rewrite HY, HM, HD.
  apply number_bytes in NY, NM, ND.
  cbn [append list_ascii_of_string].
  repeat match goal with
         | H : Forall _ (_ :: _) |- _ => inversion H; clear H; subst
         end.
  repeat (constructor; [assumption || (vm_compute; discriminate)|]).
  constructor.
Qed.

Lemma json_reread_Book b : json_reread (Book_to_dict b) = Book_to_dict (Book_reread b).
Proof. destruct b. reflexivity. Qed.

Lemma json_reread_str_dict (d : dict string) :
  json_reread (str_dict_to_json d)
  = str_dict_to_json
      (PyDict.of_items
         (map (fun td => (join_surrogates (fst td), join_surrogates (snd td))) d)).
Proof.
  unfold str_dict_to_json. cbn [json_reread]. rewrite map_map. cbn [fst snd json_reread].
  f_equal.
  rewrite <- (of_items_map_values JStr).
  rewrite map_map. reflexivity.
Qed.

Lemma json_reread_User u : json_reread (User_to_dict u) = User_to_dict (User_reread u).
Proof.
  destruct u as [i n c bd]. unfold User_to_dict, User_reread.
  cbn [u_id u_name u_contact u_borrowed PyDict.items].
  rewrite <- json_reread_str_dict. reflexivity.
Qed.

Lemma json_reread_Transaction t :
  json_reread (Transaction_to_dict t) = Transaction_to_dict (Transaction_reread t).
Proof. destruct t. reflexivity. Qed.

(** What is read back is a store that the classes can build. *)
Lemma reread_ok s : Library_ok s -> Library_ok (reread s).
Proof.
  intros (_ & _ & Ht & _). unfold reread. split; [|split; [|split]];
    cbn [books users transactions].
  - apply wf_of_items.
  - apply wf_of_items.
  - intros t Hin. apply in_map_iff in Hin as (t0 & <- & Hin).
    intros E. apply join_nonempty in E. now apply (Ht t0).
  - intros i u Hin. apply In_of_items in Hin.
    apply in_map_iff in Hin as ([i0 u0] & E & _). inversion E; subst.
    apply wf_of_items.
Qed.

Lemma reread_key_coherent s : key_coherent s -> key_coherent (reread s).
Proof.
  intros [Hb Hu]. split; cbn [reread books users]; intros k r Hin;
    apply In_of_items in Hin;
    apply in_map_iff in Hin as ([k0 r0] & E & Hin); inversion E; subst;
    cbn [fst snd Book_reread User_reread b_title u_id]; f_equal; auto.
Qed.

Lemma reread_dues_iso s : dues_iso s -> dues_iso (reread s).
Proof.
  intros H i u t due Hin Ht. cbn [reread users] in Hin.
  apply In_of_items in Hin.
  apply in_map_iff in Hin as ([i0 u0] & E & Hin). inversion E; subst.
  cbn [snd User_reread u_borrowed] in Ht. apply In_of_items in Ht.
  apply in_map_iff in Ht as ([t0 due0] & E' & Ht). inversion E'; subst.
  destruct (H i0 u0 t0 due0 Hin Ht) as (d & Hd & ->).
  exists d. split; [exact Hd|]. now apply date_isoformat_join.
Qed.

Lemma forallb_map_id {A} (p : A -> bool) (f : A -> A) (l : list A) :
  forallb p l = true -> (forall x, p x = true -> f x = x) -> map f l = l.
Proof.
  intros H Hf. rewrite <- (map_id l) at 2. apply map_ext_in.
  intros x Hx. apply Hf. rewrite forallb_forall in H. auto.
Qed.

(** A store without surrogate pairs is read back as it is. *)
Lemma reread_pairs_free s : Library_ok s -> pairs_free s = true -> reread s = s.
Proof.
  intros (Hb & Hu & _ & Hbd) H. unfold pairs_free in H.
  apply andb_true_iff in H as [H Ht]. apply andb_true_iff in H as [Hbs Hus].
  destruct s as [bs us ts]. unfold reread. cbn [books users transactions] in *.
  unfold PyDict.items in *. f_equal.
  - rewrite (forallb_map_id Book_pair_free); [now apply of_items_wf|exact Hbs|].
    intros [t [ti au ge q c]] E. unfold Book_pair_free in E. cbn in E.
    repeat (apply andb_true_iff in E as [E ?]).
    unfold Book_reread. cbn. now rewrite !pair_free_join.
  - rewrite map_ext_in with (g := fun iu => iu); [rewrite map_id; now apply of_items_wf|].
    intros [i [ui n c bd]] Hin. rewrite forallb_forall in Hus.
    specialize (Hus _ Hin). unfold User_pair_free in Hus. cbn in Hus.
    repeat (apply andb_true_iff in Hus as [Hus ?]).
    unfold User_reread. cbn. rewrite !pair_free_join by assumption.
    do 2 f_equal.
    rewrite (forallb_map_id (fun td => pair_free (fst td) && pair_free (snd td))).
    + apply of_items_wf. apply (Hbd _ _ Hin).
    + assumption.
    + intros [t due] E. cbn in E. apply andb_true_iff in E as [E1 E2].
      cbn. now rewrite !pair_free_join.
  - apply (forallb_map_id Transaction_pair_free); [exact Ht|].
    intros [u b a d] E. unfold Transaction_pair_free in E. cbn in E.
    repeat (apply andb_true_iff in E as [E ?]).
    unfold Transaction_reread. cbn. now rewrite !pair_free_join.
Qed.

(* ===================================================================== *)
(** ** save_to_file and load_from_file *)
(* ===================================================================== *)

Lemma save_to_file_run filename st :
  save_to_file filename st
  = if json_fits (snapshot (self st))
    then (Ret true,
          mkState (self st)
                  (written filename (Doc (json_reread (snapshot (self st)))) (world st)))
    else (Raise ValueError,
          mkState (self st) (written filename NotJson (world st))).
Proof.
  unfold save_to_file, json_dump, bind, get_self.
  now destruct (json_fits (snapshot (self st))).
Qed.

(** C9. Loading from a destination that does not exist raises nothing: the
    call returns [False] and the state, so the books, the users and the
    transactions, is the one before the call. *)
Theorem load_missing_file filename st :
  disk (world st) filename = None ->
  load_from_file filename st = (Ret false, st)
  /\ books (self (snd (load_from_file filename st))) = books (self st)
  /\ users (self (snd (load_from_file filename st))) = users (self st)
  /\ transactions (self (snd (load_from_file filename st))) = transactions (self st).
Proof.
  intros H.
  assert (E : load_from_file filename st = (Ret false, st)).
  { unfold load_from_file, bind, read_file. rewrite H. reflexivity. }
  rewrite E. repeat split.
Qed.

Lemma Book_roundtrip b st : Book_from_dict (Book_to_dict b) st = (Ret b, st).
Proof. destruct b. reflexivity. Qed.

Lemma as_str_dict_acc (d : dict string) : forall acc st,
  foldM (fun acc kv => s <- as_str (snd kv) ;; ret (acc ++ [(fst kv, s)])%list)
        (map (fun kv => (fst kv, JStr (snd kv))) d) acc st
  = (Ret (acc ++ d)%list, st).
Proof.
  induction d as [|[k v] d IH]; intros acc st; simpl.
  - now rewrite app_nil_r.
  - unfold bind at 1. simpl. rewrite IH. now rewrite <- app_assoc.
Qed.

Lemma as_str_dict_roundtrip (d : dict string) st :
  as_str_dict (str_dict_to_json d) st = (Ret d, st).
Proof. unfold as_str_dict, str_dict_to_json. apply as_str_dict_acc. Qed.

Lemma User_roundtrip u st :
  User_from_dict (User_to_dict u) st = (Ret u, mkState (self st) (drawn (world st))).
Proof.
  destruct u as [i n c bd]. unfold User_from_dict, User_to_dict.
  cbv -[as_str_dict str_dict_to_json]. rewrite as_str_dict_roundtrip. reflexivity.
Qed.

Lemma Transaction_roundtrip t st :
  t_date t <> EmptyString ->
  Transaction_from_dict (Transaction_to_dict t) st = (Ret t, st).
Proof.
  destruct t as [u b a d]. simpl. intros Hd.
  assert (E : String.eqb d EmptyString = false) by now apply String.eqb_neq.
  unfold Transaction_from_dict, Transaction_to_dict, Transaction_init, bind.
  simpl. rewrite E. simpl. rewrite E. reflexivity.
Qed.

Lemma load_books_fold (l : dict Book) : forall acc st,
  foldM (fun acc tb => b <- Book_from_dict (snd tb) ;;
                       ret (PyDict.set (fst tb) b acc))
        (map (fun tb => (fst tb, Book_to_dict (snd tb))) l) acc st
  = (Ret (fold_left (fun acc kv => PyDict.set (fst kv) (snd kv) acc) l acc), st).
Proof.
  induction l as [|[t b] l IH]; intros acc st; simpl; [reflexivity|].
  unfold bind at 1. unfold bind at 1. rewrite Book_roundtrip. simpl. apply IH.
Qed.

Lemma draws_drawn n w : draws n (drawn w) = draws (S n) w.
Proof. unfold draws, drawn. simpl. f_equal. lia. Qed.

Lemma load_users_fold (l : dict User) : forall acc st,
  foldM (fun acc iu => u <- User_from_dict (snd iu) ;;
                       ret (PyDict.set (fst iu) u acc))
        (map (fun iu => (fst iu, User_to_dict (snd iu))) l) acc st
  = (Ret (fold_left (fun acc kv => PyDict.set (fst kv) (snd kv) acc) l acc),
     mkState (self st) (draws (List.length l) (world st))).
Proof.
  induction l as [|[i u] l IH]; intros acc st; simpl.
  - destruct st as [s w]. destruct w. reflexivity.
  - unfold bind at 1. unfold bind at 1. rewrite User_roundtrip. simpl snd. simpl fst.
    unfold ret at 1. rewrite IH. simpl. now rewrite draws_drawn.
Qed.

Lemma load_transactions_map (l : list Transaction) : forall st,
  (forall t, In t l -> t_date t <> EmptyString) ->
  mapM Transaction_from_dict (map Transaction_to_dict l) st = (Ret l, st).
Proof.
  induction l as [|t l IH]; intros st Hd; simpl; [reflexivity|].
  unfold bind at 1. rewrite Transaction_roundtrip by (apply Hd; now left).
  unfold bind at 1. rewrite IH by (intros t' Ht'; apply Hd; now right).
  reflexivity.
Qed.

Lemma keys_map_snd {V W} (f : V -> W) (d : dict V) :
  PyDict.keys (map (fun kv => (fst kv, f (snd kv))) d) = PyDict.keys d.
Proof. unfold PyDict.keys. rewrite map_map. reflexivity. Qed.

Lemma snapshot_wf s :
  Library_ok s ->
  snapshot s
  = JDict [("books", JDict (map (fun tb => (fst tb, Book_to_dict (snd tb))) (books s)));
           ("users", JDict (map (fun iu => (fst iu, User_to_dict (snd iu))) (users s)));
           ("transactions", JList (map Transaction_to_dict (transactions s)))].
Proof.
  intros (Hb & Hu & _). unfold snapshot, PyDict.items.
  rewrite !of_items_wf; [reflexivity| |]; unfold PyDict.wf; now rewrite keys_map_snd.
Qed.

(** Loading a file that holds the snapshot of a store gives that store. *)
Lemma load_snapshot filename s st :
  Library_ok s ->
  disk (world st) filename = Some (Doc (snapshot s)) ->
  load_from_file filename st
  = (Ret true, mkState s (draws (List.length (users s)) (world st))).
Proof.
  intros Hok Hdisk. pose proof Hok as (Hb & Hu & Ht & _).
  unfold load_from_file.
  rewrite (bind_run _ _ st (Some (Doc (snapshot s))) st)
    by (unfold read_file; now rewrite Hdisk).
  rewrite (snapshot_wf s Hok).
  erewrite bind_run by reflexivity.
  erewrite bind_run by apply load_books_fold.
  erewrite bind_run by reflexivity.
  erewrite bind_run by reflexivity.
  erewrite bind_run by apply load_users_fold.
  erewrite bind_run by reflexivity.
  erewrite bind_run by reflexivity.
  erewrite bind_run by (apply load_transactions_map; exact Ht).
  erewrite bind_run by reflexivity.
  unfold ret.
  rewrite !fold_set_fresh by (simpl; assumption).
  simpl. destruct s. reflexivity.
Qed.

Lemma save_to_file_self filename st : self (snd (save_to_file filename st)) = self st.
Proof.
  rewrite save_to_file_run. now destruct (json_fits (snapshot (self st))).
Qed.

Lemma json_reread_top B U T :
  json_reread (JDict [("books", B); ("users", U); ("transactions", T)])
  = JDict [("books", json_reread B); ("users", json_reread U);
           ("transactions", json_reread T)].
Proof. reflexivity. Qed.

Lemma json_reread_dict {V} (to_dict : V -> json) (rr : V -> V) (d : dict V) :
  (forall v, json_reread (to_dict v) = to_dict (rr v)) ->
  json_reread (JDict (map (fun kv => (fst kv, to_dict (snd kv))) d))
  = JDict (map (fun kv => (fst kv, to_dict (snd kv)))
               (PyDict.of_items
                  (map (fun kv => (join_surrogates (fst kv), rr (snd kv))) d))).
Proof.
  intros H. cbn [json_reread]. f_equal. rewrite map_map. cbn [fst snd].
  rewrite <- (of_items_map_values to_dict), map_map. cbn [fst snd].
  f_equal. apply map_ext. intros [k v]. cbn [fst snd]. now rewrite H.
Qed.

(** The file that [save_to_file] writes holds the snapshot of the store as
    it is read back. *)
Lemma snapshot_reread s :
  Library_ok s -> json_reread (snapshot s) = snapshot (reread s).
Proof.
  intros Hok. rewrite (snapshot_wf s Hok), (snapshot_wf _ (reread_ok s Hok)).
  rewrite json_reread_top.
  rewrite (json_reread_dict Book_to_dict Book_reread) by apply json_reread_Book.
  rewrite (json_reread_dict User_to_dict User_reread) by apply json_reread_User.
  cbn [json_reread reread books users transactions]. rewrite !map_map.
  do 4 f_equal.
Qed.

Lemma json_fits_str_dict (d : dict string) : json_fits (str_dict_to_json d) = true.
Proof.
  unfold str_dict_to_json. cbn [json_fits].
  induction d as [|[k v] d IH]; [reflexivity|exact IH].
Qed.

(** [json.dump] fails on the snapshot exactly when an integer of the store
    is too long. *)
Lemma snapshot_fits s : Library_ok s -> json_fits (snapshot s) = ints_fit s.
Proof.
  intros Hok. rewrite (snapshot_wf s Hok). unfold ints_fit, PyDict.values.
  cbn [json_fits forallb snd].
  assert (Hu : forallb (fun kv => json_fits (snd kv))
                 (map (fun iu => (fst iu, User_to_dict (snd iu))) (users s)) = true).
  { induction (users s) as [|[i u] us IH]; [reflexivity|].
    cbn [map forallb fst snd]. rewrite IH, andb_true_r.
    unfold User_to_dict. cbn [json_fits forallb snd].
    now rewrite json_fits_str_dict. }
  assert (Ht : forallb json_fits (map Transaction_to_dict (transactions s)) = true).
  { induction (transactions s) as [|t ts IH]; [reflexivity|].
    cbn [map forallb]. rewrite IH. reflexivity. }
  rewrite Hu, Ht. cbn [andb]. rewrite andb_true_r.
  induction (books s) as [|[t b] bs IH]; [reflexivity|].
  cbn [map forallb fst snd]. rewrite IH. f_equal.
  unfold Book_to_dict. cbn [json_fits forallb snd]. now rewrite !andb_true_r.
Qed.

Lemma load_not_json filename st :
  disk (world st) filename = Some NotJson ->
  load_from_file filename st = (Raise JSONDecodeError, st).
Proof.
  intros H. unfold load_from_file.
  rewrite (bind_run _ _ st (Some NotJson) st)
    by (unfold read_file; now rewrite H).
  reflexivity.
Qed.

(** What a load finds after a save: the store as it is read back, when no
    integer of the store is too long. *)
Lemma load_saved filename st st2 :
  Library_ok (self st) ->
  ints_fit (self st) = true ->
  disk (world st2) filename = disk (world (snd (save_to_file filename st))) filename ->
  save_to_file filename st
  = (Ret true,
     mkState (self st)
             (written filename (Doc (snapshot (reread (self st)))) (world st)))
  /\ load_from_file filename st2
     = (Ret true,
        mkState (reread (self st))
                (draws (List.length (users (reread (self st)))) (world st2))).
Proof.
  intros Hok Hfit.
  rewrite save_to_file_run, (snapshot_fits _ Hok), Hfit, (snapshot_reread _ Hok).
  cbn [snd world written disk]. rewrite String.eqb_refl. intros Hdisk.
  split; [reflexivity|].
  apply (load_snapshot filename (reread (self st)) st2 (reread_ok _ Hok) Hdisk).
Qed.

(** ... and when one is: the save raises and the file is lost. *)
Lemma load_unsaved filename st st2 :
  Library_ok (self st) ->
  ints_fit (self st) = false ->
  disk (world st2) filename = disk (world (snd (save_to_file filename st))) filename ->
  save_to_file filename st
  = (Raise ValueError, mkState (self st) (written filename NotJson (world st)))
  /\ load_from_file filename st2 = (Raise JSONDecodeError, st2).
Proof.
  intros Hok Hfit.
  rewrite save_to_file_run, (snapshot_fits _ Hok), Hfit.
  cbn [snd world written disk]. rewrite String.eqb_refl. intros Hdisk.
  split; [reflexivity|]. now apply load_not_json.
Qed.

(** C4, as amended.  For every store as the classes build it (a dict holds a
    key once, a transaction has a date) whose quantities and issue counts
    have at most 4300 decimal digits and whose keys and strings hold no
    high surrogate followed by a low one, [save_to_file] returns [True],
    and [load_from_file] on a state whose disk holds what was written
    returns [True] and leaves a store equal to the saved one: the same
    books, users with the same borrowed entries and transactions, in the
    same order. *)
Theorem save_load_roundtrip filename st :
  Library_ok (self st) ->
  ints_fit (self st) = true ->
  pairs_free (self st) = true ->
  exists st1,
    save_to_file filename st = (Ret true, st1)
    /\ self st1 = self st
    /\ forall st2,
         disk (world st2) filename = disk (world st1) filename ->
         exists st3,
           load_from_file filename st2 = (Ret true, st3)
           /\ self st3 = self st
           /\ books (self st3) = books (self st)
           /\ users (self st3) = users (self st)
           /\ transactions (self st3) = transactions (self st).
Proof.
  intros Hok Hfit Hfree.
  exists (snd (save_to_file filename st)).
  destruct (load_saved filename st (snd (save_to_file filename st)) Hok Hfit eq_refl)
    as [Hsave _].
  split; [rewrite Hsave; reflexivity|]. split; [now rewrite Hsave|].
  intros st2 Hdisk.
  destruct (load_saved filename st st2 Hok Hfit Hdisk) as [_ Hload].
  rewrite (reread_pairs_free _ Hok Hfree) in Hload.
  eexists. split; [exact Hload|]. repeat split.
Qed.

(* ===================================================================== *)
(** ** Invariants of the runs *)
(* ===================================================================== *)

Lemma quantities_set title b' s us ts :
  quantities_nonneg s -> 0 <= b_quantity b' ->
  quantities_nonneg (mkLibrary (PyDict.set title b' (books s)) us ts).
Proof.
  intros Hq Hb' t b Hin. simpl in Hin.
  apply In_set in Hin as [[_ ->]|Hin]; [exact Hb'|eauto].
Qed.

Lemma quantities_same_books s s' :
  books s' = books s -> quantities_nonneg s -> quantities_nonneg s'.
Proof. unfold quantities_nonneg. intros ->. auto. Qed.

Lemma exec_quantities c st :
  catalog_call c -> quantities_nonneg (self st) -> quantities_nonneg (self (exec c st)).
Proof.
  intros Hc Hq. destruct c as [t a g q|t|n c|i|i t|i t|f|f|]; simpl in Hc;
    try contradiction; cbn [exec].
  - rewrite add_book_run. simpl.
    destruct (PyDict.get t (books (self st))) as [b|] eqn:Hb.
    + apply quantities_set; [exact Hq|]. simpl. apply get_In in Hb.
      specialize (Hq _ _ Hb). lia.
    + apply quantities_set; [exact Hq|]. simpl. lia.
  - rewrite remove_book_run.
    destruct (PyDict.mem t (books (self st))); [|exact Hq].
    intros t' b Hin. simpl in Hin. apply In_remove in Hin as [Hin _]. eauto.
  - rewrite add_user_run. exact Hq.
  - rewrite remove_user_run.
    destruct (PyDict.mem i (users (self st))); exact Hq.
  - rewrite issue_book_run.
    destruct (PyDict.get i (users (self st))) as [u|]; [|exact Hq].
    destruct (PyDict.get t (books (self st))) as [b|] eqn:Hb; [|exact Hq].
    destruct (Z.leb_spec (b_quantity b) 0) as [|Hpos]; [exact Hq|].
    destruct (add_days (now st) 14); [|exact Hq].
    simpl. apply quantities_set; [exact Hq|]. simpl. lia.
  - rewrite return_book_run.
    destruct (PyDict.get i (users (self st))) as [u|]; [|exact Hq].
    destruct (PyDict.get t (u_borrowed u)); [|exact Hq].
    simpl. destruct (PyDict.get t (books (self st))) as [b|] eqn:Hb.
    + apply quantities_set; [exact Hq|]. simpl. apply get_In in Hb.
      specialize (Hq _ _ Hb). lia.
    + apply quantities_set; [exact Hq|]. simpl. lia.
Qed.

(** C5. In every state reached from the empty store by calls of
    [add_book] (with a quantity that is not negative), [remove_book],
    [add_user], [remove_user], [issue_book] and [return_book], the
    quantity of every book of the catalog is at least 0: [issue_book] only
    takes a copy when the quantity is positive. *)
Theorem quantity_never_negative st :
  reachable st ->
  forall t b, In (t, b) (books (self st)) -> 0 <= b_quantity b.
Proof.
  induction 1 as [w|st c Hr IH Hc].
  - intros t b [].
  - apply exec_quantities; assumption.
Qed.

Lemma entries_set {V} (P : string -> V -> Prop) k v (d : dict V) :
  (forall k' v', In (k', v') d -> P k' v') -> P k v ->
  forall k' v', In (k', v') (PyDict.set k v d) -> P k' v'.
Proof.
  intros Hd Hv k' v' Hin. apply In_set in Hin as [[-> ->]|Hin]; auto.
Qed.

Lemma entries_remove {V} (P : string -> V -> Prop) k (d : dict V) :
  (forall k' v', In (k', v') d -> P k' v') ->
  forall k' v', In (k', v') (PyDict.remove k d) -> P k' v'.
Proof. intros Hd k' v' Hin. apply In_remove in Hin as [Hin _]. auto. Qed.

Lemma append_nonempty (s1 : string) c s2 : (s1 ++ String c s2)%string <> EmptyString.
Proof. destruct s1; discriminate. Qed.

Lemma datetime_isoformat_nonempty dt : datetime_isoformat dt <> EmptyString.
Proof. unfold datetime_isoformat. apply append_nonempty. Qed.

Lemma dates_append ts t :
  (forall x, In x ts -> t_date x <> EmptyString) -> t_date t <> EmptyString ->
  forall x, In x (ts ++ [t])%list -> t_date x <> EmptyString.
Proof.
  intros Hts Ht x Hin. apply in_app_iff in Hin as [Hin|[<-|[]]]; auto.
Qed.

Lemma io_invariant_fresh w : disk_saved w -> io_invariant (fresh_state w).
Proof.
  intros Hd. split; [|split]; [| |exact Hd].
  - split; [constructor|]. split; [constructor|].
    split; [intros t []|intros i u []].
  - split; intros ? ? [].
Qed.

Ltac invariant_parts :=
  unfold io_invariant, Library_ok, key_coherent;
  cbn [snd self world books users transactions];
  (split; [split; [|split; [|split]]|split; [split|]]); try assumption.

Lemma exec_io_invariant c st : io_invariant st -> io_invariant (exec c st).
Proof.
  intros Hinv. pose proof Hinv as ((Hwb & Hwu & Hts & Hbd) & (Hkb & Hku) & Hdisk).
  destruct c as [t a g q|t|n c|i|i t|i t|f|f|]; cbn [exec].
  - (* add_book *)
    rewrite add_book_run. unfold book_added. invariant_parts.
    + destruct (PyDict.get t (books (self st))); now apply wf_set.
    + destruct (PyDict.get t (books (self st))) as [b|] eqn:Hb;
        apply entries_set; try assumption; simpl; [|reflexivity].
      apply Hkb. now apply get_In.
  - (* remove_book *)
    rewrite remove_book_run.
    destruct (PyDict.mem t (books (self st))); [|exact Hinv].
    invariant_parts.
    + now apply wf_remove.
    + now apply entries_remove.
  - (* add_user *)
    rewrite add_user_run. invariant_parts.
    + now apply wf_set.
    + apply (entries_set (fun _ u => PyDict.wf (u_borrowed u))); [assumption|].
      constructor.
    + apply entries_set; [assumption|reflexivity].
  - (* remove_user *)
    rewrite remove_user_run.
    destruct (PyDict.mem i (users (self st))); [|exact Hinv].
    invariant_parts.
    + now apply wf_remove.
    + now apply (entries_remove (fun _ u => PyDict.wf (u_borrowed u))).
    + now apply entries_remove.
  - (* issue_book *)
    rewrite issue_book_run.
    destruct (PyDict.get i (users (self st))) as [u|] eqn:Hu; [|exact Hinv].
    destruct (PyDict.get t (books (self st))) as [b|] eqn:Hb; [|exact Hinv].
    destruct (b_quantity b <=? 0); [exact Hinv|].
    destruct (add_days (now st) 14); [|exact Hinv].
    unfold issued. invariant_parts.
    + now apply wf_set.
    + now apply wf_set.
    + apply dates_append; [assumption|]. apply datetime_isoformat_nonempty.
    + apply (entries_set (fun _ u => PyDict.wf (u_borrowed u))); [assumption|].
      cbn [with_borrowed u_borrowed]. apply wf_set. apply (Hbd i u).
      now apply get_In.
    + apply entries_set; [assumption|]. simpl. apply Hkb. now apply get_In.
    + apply entries_set; [assumption|]. simpl. apply Hku. now apply get_In.
  - (* return_book *)
    rewrite return_book_run.
    destruct (PyDict.get i (users (self st))) as [u|] eqn:Hu; [|exact Hinv].
    destruct (PyDict.get t (u_borrowed u)); [|exact Hinv].
    unfold returned. invariant_parts.
    + destruct (PyDict.get t (books (self st))); now apply wf_set.
    + now apply wf_set.
    + apply dates_append; [assumption|]. apply datetime_isoformat_nonempty.
    + apply (entries_set (fun _ u => PyDict.wf (u_borrowed u))); [assumption|].
      cbn [with_borrowed u_borrowed]. apply wf_remove. apply (Hbd i u).
      now apply get_In.
    + destruct (PyDict.get t (books (self st))) as [b|] eqn:Hb;
        apply entries_set; try assumption; simpl; [|reflexivity].
      apply Hkb. now apply get_In.
    + apply entries_set; [assumption|]. simpl. apply Hku. now apply get_In.
  - (* save_to_file *)
    destruct Hinv as (Hok & Hk & _).
    rewrite save_to_file_run, (snapshot_reread _ Hok).
    destruct (json_fits (snapshot (self st))); invariant_parts;
      intros f' c Hc; cbn [written disk] in Hc;
      (destruct (String.eqb f' f); [|now apply (Hdisk f')]);
      injection Hc as <-; [|now left].
    right. exists (reread (self st)).
    split; [now apply reread_ok|]. split; [now apply reread_key_coherent|].
    reflexivity.
  - (* load_from_file *)
    destruct (disk (world st) f) as [c|] eqn:Hf.
    + destruct (Hdisk f c Hf) as [->|(s & Hok & Hk & ->)].
      * now rewrite load_not_json.
      * rewrite (load_snapshot f s st Hok Hf). unfold io_invariant.
        cbn [snd self world]. split; [exact Hok|]. split; [exact Hk|].
        exact Hdisk.
    + unfold load_from_file, bind, read_file. rewrite Hf. exact Hinv.
  - (* restart *)
    now apply io_invariant_fresh.
Qed.

(** C10. In every state reached from the empty store on an empty disk by
    any sequence of [add_book], [remove_book], [add_user], [remove_user],
    [issue_book], [return_book], [save_to_file], [load_from_file] (which
    then only finds files that [save_to_file] wrote) and restarts of the
    process, every entry [t -> b] of [books] has [b.title = t] and every
    entry [i -> u] of [users] has [u.id = i]. *)
Theorem keys_agree_with_records st :
  reachable_io st ->
  (forall t b, PyDict.get t (books (self st)) = Some b -> b_title b = t)
  /\ (forall i u, PyDict.get i (users (self st)) = Some u -> u_id u = i)
  /\ key_coherent (self st).
Proof.
  intros Hr.
  assert (Hinv : io_invariant st).
  { induction Hr as [w Hw|st c Hr IH].
    - apply io_invariant_fresh. intros f c Hc. rewrite Hw in Hc. discriminate.
    - now apply exec_io_invariant. }
  destruct Hinv as (_ & (Hkb & Hku) & _).
  split; [|split; [|split; assumption]].
  - intros t b H. apply Hkb. now apply get_In.
  - intros i u H. apply Hku. now apply get_In.
Qed.

Lemma add_days_some dt n later :
  add_days dt n = Some later ->
  dt_date later = fromordinal (toordinal (dt_date dt) + n)
  /\ 0 < toordinal (dt_date dt) + n <= _MAXORDINAL.
Proof.
  unfold add_days.
  destruct (Z.ltb_spec 0 (toordinal (dt_date dt) + n)); [|discriminate].
  destruct (Z.leb_spec (toordinal (dt_date dt) + n) _MAXORDINAL); [|discriminate].
  cbn [andb]. intros E. inversion E. split; [reflexivity|lia].
Qed.

Lemma dues_iso_users s s' :
  users s' = users s -> dues_iso s -> dues_iso s'.
Proof. unfold dues_iso. intros ->. auto. Qed.

Lemma exec_dues_invariant c st :
  io_invariant st -> dues_invariant st -> dues_invariant (exec c st).
Proof.
  intros (Hok & Hk & _) (Hdues & Hdisk).
  destruct c as [t a g q|t|n c|i|i t|i t|f|f|]; cbn [exec].
  - rewrite add_book_run. split; [|exact Hdisk].
    now apply (dues_iso_users (self st)).
  - rewrite remove_book_run.
    destruct (PyDict.mem t (books (self st))); split; assumption.
  - rewrite add_user_run. split; [|exact Hdisk].
    intros i u t due Hin Ht. cbn [snd self users] in Hin.
    apply In_set in Hin as [[_ ->]|Hin]; [destruct Ht|eauto].
  - rewrite remove_user_run.
    destruct (PyDict.mem i (users (self st))); split; try assumption.
    intros i' u t due Hin Ht. cbn [snd self users] in Hin.
    apply In_remove in Hin as [Hin _]. eauto.
  - rewrite issue_book_run.
    destruct (PyDict.get i (users (self st))) as [u|] eqn:Hu; [|now split].
    destruct (PyDict.get t (books (self st))) as [b|]; [|now split].
    destruct (b_quantity b <=? 0); [now split|].
    destruct (add_days (now st) 14) as [later|] eqn:Ha; [|now split].
    apply add_days_some in Ha as [Hdate Hrange].
    split; [|exact Hdisk].
    intros i' u' t' due Hin Ht. cbn [snd self users issued] in Hin.
    apply In_set in Hin as [[_ ->]|Hin]; [|eauto].
    cbn [u_borrowed with_borrowed] in Ht.
    apply In_set in Ht as [[_ ->]|Ht].
    + exists (dt_date later). split; [|reflexivity].
      rewrite Hdate. apply toordinal_fromordinal. lia.
    + apply get_In in Hu. eauto.
  - rewrite return_book_run.
    destruct (PyDict.get i (users (self st))) as [u|] eqn:Hu; [|now split].
    destruct (PyDict.get t (u_borrowed u)); [|now split].
    split; [|exact Hdisk].
    intros i' u' t' due Hin Ht. cbn [snd self users returned] in Hin.
    apply In_set in Hin as [[_ ->]|Hin]; [|eauto].
    cbn [u_borrowed with_borrowed] in Ht. apply In_remove in Ht as [Ht _].
    apply get_In in Hu. eauto.
  - rewrite save_to_file_run, (snapshot_reread _ Hok).
    destruct (json_fits (snapshot (self st))); (split; [exact Hdues|]);
      intros f' c Hc; cbn [snd world written disk] in Hc;
      (destruct (String.eqb f' f); [|now apply (Hdisk f')]);
      injection Hc as <-; [|now left].
    right. exists (reread (self st)).
    split; [now apply reread_ok|]. split; [now apply reread_dues_iso|].
    reflexivity.
  - destruct (disk (world st) f) as [c|] eqn:Hf.
    + destruct (Hdisk f c Hf) as [->|(s & Hoks & Hds & ->)].
      * rewrite load_not_json by exact Hf. now split.
      * rewrite (load_snapshot f s st Hoks Hf). split; assumption.
    + unfold load_from_file, bind, read_file. rewrite Hf. now split.
  - split; [|exact Hdisk]. intros i u t due [].
Qed.

Lemma reachable_io_invariants st :
  reachable_io st -> io_invariant st /\ dues_invariant st.
Proof.
  induction 1 as [w Hw|st c Hr [IH1 IH2]].
  - split.
    + apply io_invariant_fresh. intros f c Hc. rewrite Hw in Hc. discriminate.
    + split; [intros i u t due []|].
      intros f c Hc. rewrite Hw in Hc. discriminate.
  - split; [now apply exec_io_invariant|now apply exec_dues_invariant].
Qed.

(** In every run the store is one the classes can build. *)
Lemma reachable_io_ok st : reachable_io st -> Library_ok (self st).
Proof. intros H. apply reachable_io_invariants in H. apply H. Qed.

(* ===================================================================== *)
(** ** generate_report *)
(* ===================================================================== *)

Section SortingFacts.
Context {A : Type} (key : A -> Z).

Lemma insert_desc_perm x l : Permutation (insert_desc key x l) (x :: l).
Proof.
  induction l as [|y l IH]; simpl; [reflexivity|].
  destruct (key x <? key y); [|reflexivity].
  rewrite IH. apply perm_swap.
Qed.

Lemma sorted_desc_perm l : Permutation (sorted_desc key l) l.
Proof.
  induction l as [|x l IH]; simpl; [reflexivity|].
  rewrite insert_desc_perm. now constructor.
Qed.

Lemma sorted_desc_length l : List.length (sorted_desc key l) = List.length l.
Proof. apply Permutation_length, sorted_desc_perm. Qed.

Lemma insert_desc_sorted x l :
  StronglySorted (fun a b => key b <= key a) l ->
  StronglySorted (fun a b => key b <= key a) (insert_desc key x l).
Proof.
  induction 1 as [|y l Hs IH Hall]; simpl.
  - repeat constructor.
  - destruct (Z.ltb_spec (key x) (key y)) as [Hlt|Hge].
    + constructor; [exact IH|].
      rewrite Forall_forall in *. intros z Hz.
      apply (Permutation_in _ (insert_desc_perm x l)) in Hz as [<-|Hz];
        [lia|auto].
    + constructor; [now constructor|].
      constructor; [exact Hge|].
      rewrite Forall_forall in *. intros z Hz. specialize (Hall z Hz). lia.
Qed.

Lemma sorted_desc_sorted l :
  StronglySorted (fun a b => key b <= key a) (sorted_desc key l).
Proof.
  induction l as [|x l IH]; simpl; [constructor|].
  now apply insert_desc_sorted.
Qed.

(** Stability: the elements of one key keep their order. *)
Lemma insert_desc_stable c x l :
  filter (fun y => key y =? c) (insert_desc key x l)
  = filter (fun y => key y =? c) (x :: l).
Proof.
  induction l as [|y l IH]; [reflexivity|].
  cbn [insert_desc]. destruct (Z.ltb_spec (key x) (key y)) as [Hlt|Hge];
    [|reflexivity].
  cbn [filter] in *. rewrite IH.
  destruct (Z.eqb_spec (key x) c), (Z.eqb_spec (key y) c); try reflexivity.
  lia.
Qed.

Lemma sorted_desc_stable c l :
  filter (fun y => key y =? c) (sorted_desc key l)
  = filter (fun y => key y =? c) l.
Proof.
  induction l as [|x l IH]; [reflexivity|].
  cbn [sorted_desc fold_right]. fold (sorted_desc key l).
  rewrite insert_desc_stable. cbn [filter]. now rewrite IH.
Qed.

Lemma firstn_sorted (R : A -> A -> Prop) n l :
  StronglySorted R l -> StronglySorted R (firstn n l).
Proof.
  intros H. revert n. induction H as [|x l Hs IH Hall]; intros [|n]; simpl;
    try constructor; auto.
  rewrite Forall_forall in *. intros y Hy. apply Hall.
  rewrite <- (firstn_skipn n l). apply in_or_app. now left.
Qed.
End SortingFacts.

Lemma date_ltb_irrefl d : date_ltb d d = false.
Proof.
  unfold date_ltb. rewrite !Z.ltb_irrefl, !Z.eqb_refl. reflexivity.
Qed.

Lemma in_loans s u t due :
  In (u, t, due) (loans s)
  <-> In u (PyDict.values (users s)) /\ In (t, due) (PyDict.items (u_borrowed u)).
Proof.
  unfold loans. rewrite in_flat_map. split.
  - intros (u' & Hu & Hin). apply in_map_iff in Hin as ([t' d'] & Heq & Hin).
    simpl in Heq. inversion Heq; subst. auto.
  - intros [Hu Hin]. exists u. split; [exact Hu|].
    apply in_map_iff. exists (t, due). auto.
Qed.

Section ReportFacts.
Variable fromisoformat : string -> option datetime.
Variable strptime_ymd : string -> option datetime.

Let parse := due_date_of fromisoformat strptime_ymd.
Let step := overdue_step fromisoformat strptime_ymd.

(** The inner loop, over the borrowed entries of one user *)
Lemma overdue_inner today u items : forall acc st,
  let ls := map (fun item => (u, fst item, snd item)) items in
  foldM (step today u) items acc st
  = if forallb (readable parse) ls
    then (Ret (acc ++ map entry_of (filter (is_overdue parse today) ls))%list, st)
    else (Raise ValueError, st).
Proof.
  induction items as [|[t due] items IH]; intros acc st; simpl.
  - now rewrite app_nil_r.
  - unfold bind at 1. unfold step at 1, overdue_step, parse_due.
    unfold readable at 1, is_overdue at 1. simpl snd. fold parse.
    destruct (parse due) as [d|] eqn:Hp; simpl; [|reflexivity].
    unfold bind at 1. simpl.
    destruct (date_ltb d today); simpl; rewrite IH; simpl;
      destruct (forallb _ _); try reflexivity.
    now rewrite <- app_assoc.
Qed.

(** The outer loop, over the users *)
Lemma overdue_outer today us : forall acc st,
  let ls := flat_map (fun u => map (fun item => (u, fst item, snd item))
                                   (PyDict.items (u_borrowed u))) us in
  foldM (fun acc u => foldM (step today u) (PyDict.items (u_borrowed u)) acc)
        us acc st
  = if forallb (readable parse) ls
    then (Ret (acc ++ map entry_of (filter (is_overdue parse today) ls))%list, st)
    else (Raise ValueError, st).
Proof.
  induction us as [|u us IH]; intros acc st; simpl.
  - now rewrite app_nil_r.
  - unfold bind at 1. rewrite overdue_inner. rewrite forallb_app.
    destruct (forallb _ (map _ (PyDict.items (u_borrowed u)))); simpl;
      [|reflexivity].
    rewrite IH. simpl. destruct (forallb _ _); [|reflexivity].
    now rewrite filter_app, map_app, app_assoc.
Qed.

(** [generate_report] reads the clock once, changes nothing else, and
    returns the report unless a due date cannot be read. *)
Lemma generate_report_run st :
  generate_report fromisoformat strptime_ymd st
  = if forallb (readable parse) (loans (self st))
    then (Ret (report_of parse st), mkState (self st) (tick 1 (world st)))
    else (Raise ValueError, mkState (self st) (tick 1 (world st))).
Proof.
  unfold generate_report. unfold bind at 1, get_self.
  unfold bind at 1, utcnow. cbn [fst snd].
  unfold bind at 1. fold step. rewrite overdue_outer. cbn [self world].
  fold (loans (self st)). destruct (forallb _ _); reflexivity.
Qed.

Lemma readable_all st :
  (forall loan, In loan (loans (self st)) -> parse (snd loan) <> None) ->
  forallb (readable parse) (loans (self st)) = true.
Proof.
  intros H. apply forallb_forall. intros loan Hin. unfold readable.
  specialize (H loan Hin). now destruct (parse (snd loan)).
Qed.

Lemma earlier_dec_spec d1 d2 : earlier_dec d1 d2 = true <-> earlier d1 d2.
Proof.
  unfold earlier_dec, earlier.
  rewrite orb_true_iff, andb_true_iff, orb_true_iff, andb_true_iff.
  rewrite !Z.ltb_lt, !Z.eqb_eq. tauto.
Qed.

Lemma overdue_loan_run today loan :
  is_overdue parse today loan = overdue_loan fromisoformat strptime_ymd today loan.
Proof.
  unfold is_overdue, overdue_loan, parse, due_date_of.
  destruct (fromisoformat (snd loan)); [reflexivity|].
  now destruct (strptime_ymd (snd loan)).
Qed.

Lemma loan_entry_run loan : entry_of loan = loan_entry loan.
Proof. now destruct loan as [[u t] due]. Qed.

(** C6. When every due date of the store can be read, by [fromisoformat]
    or else by [strptime], [generate_report] returns a report whose
    [overdue] list is, in this order, the records {user_id, name, book,
    due} of the loans (users in the order of the dict, then the borrowed
    entries of each user in the order of its dict) whose due date, as it is
    read, is strictly before today's date.  So a record is in the list if
    and only if it is the record of a (user, title, due) with the title in
    the user's [borrowed] dict and the due date before today, the time of
    day left out; a due date equal to today gives no record.  On dates of
    the calendar "before" is the order of the day numbers. *)
Theorem overdue_report st :
  (forall loan, In loan (loans (self st)) ->
     fromisoformat (snd loan) <> None \/ strptime_ymd (snd loan) <> None) ->
  let today := dt_date (now st) in
  exists r,
    generate_report fromisoformat strptime_ymd st
    = (Ret r, mkState (self st) (tick 1 (world st)))
    /\ overdue r
       = map loan_entry
             (filter (overdue_loan fromisoformat strptime_ymd today)
                     (loans (self st)))
    /\ (forall e,
          In e (overdue r) <->
          exists u t due dt,
            In u (PyDict.values (users (self st)))
            /\ In (t, due) (PyDict.items (u_borrowed u))
            /\ (fromisoformat due = Some dt
                \/ (fromisoformat due = None /\ strptime_ymd due = Some dt))
            /\ earlier (dt_date dt) today
            /\ e = JDict [("user_id", JStr (u_id u)); ("name", JStr (u_name u));
                          ("book", JStr t); ("due", JStr due)])
    /\ (forall u t due dt,
          fromisoformat due = Some dt
          \/ (fromisoformat due = None /\ strptime_ymd due = Some dt) ->
          dt_date dt = today ->
          ~ In (JDict [("user_id", JStr (u_id u)); ("name", JStr (u_name u));
                       ("book", JStr t); ("due", JStr due)])
               (overdue r))
    /\ (forall d,
          valid_date d -> valid_date today ->
          (earlier d today <-> toordinal d < toordinal today)).
Proof.
  intros Hread today. exists (report_of parse st).
  assert (Hlist : overdue (report_of parse st)
                  = map loan_entry
                        (filter (overdue_loan fromisoformat strptime_ymd today)
                                (loans (self st)))).
  { cbn [overdue report_of]. unfold overdue_spec. fold today.
    rewrite (filter_ext _ _ (overdue_loan_run today)).
    apply map_ext, loan_entry_run. }
  assert (Hiff : forall e,
    In e (overdue (report_of parse st)) <->
    exists u t due dt,
      In u (PyDict.values (users (self st)))
      /\ In (t, due) (PyDict.items (u_borrowed u))
      /\ (fromisoformat due = Some dt
          \/ (fromisoformat due = None /\ strptime_ymd due = Some dt))
      /\ earlier (dt_date dt) today
      /\ e = JDict [("user_id", JStr (u_id u)); ("name", JStr (u_name u));
                    ("book", JStr t); ("due", JStr due)]).
  { intros e. rewrite Hlist, in_map_iff. split.
    - intros ([[u t] due] & <- & Hin). apply filter_In in Hin as [Hin Hov].
      apply in_loans in Hin as [Hu Ht]. unfold overdue_loan in Hov. cbn [snd] in Hov.
      destruct (fromisoformat due) as [dt|] eqn:Hf.
      + exists u, t, due, dt. apply earlier_dec_spec in Hov. auto 6.
      + destruct (strptime_ymd due) as [dt|] eqn:Hs; [|discriminate].
        exists u, t, due, dt. apply earlier_dec_spec in Hov. auto 7.
    - intros (u & t & due & dt & Hu & Ht & Hp & Hlt & ->).
      exists (u, t, due). split; [reflexivity|].
      apply filter_In. split; [now apply in_loans|].
      apply earlier_dec_spec in Hlt. unfold overdue_loan. cbn [snd].
      destruct Hp as [->|[-> ->]]; exact Hlt. }
  split; [|split; [|split; [|split]]].
  - rewrite generate_report_run. fold parse. rewrite readable_all; [reflexivity|].
    intros loan Hin. unfold parse, due_date_of.
    destruct (Hread loan Hin) as [H|H];
      destruct (fromisoformat (snd loan)); try discriminate;
      destruct (strptime_ymd (snd loan)); try discriminate; now elim H.
  - exact Hlist.
  - exact Hiff.
  - intros u t due dt Hp Htoday Hin. apply Hiff in Hin.
    destruct Hin as (u' & t' & due' & dt' & _ & _ & Hp' & Hlt & Heq).
    inversion Heq; subst due'.
    assert (dt' = dt) by (destruct Hp as [Hp|[Hp Hp2]], Hp' as [Hp'|[Hp' Hp2']];
                          congruence).
    subst dt'. rewrite Htoday in Hlt. unfold earlier in Hlt. lia.
  - intros d Hd Htoday. rewrite <- earlier_dec_spec.
    now apply date_ltb_ordinal.
Qed.

(** C7. The [popular] list of the report is made of the records of
    [popular_books]: the first 10 books of the catalog sorted by
    issued_count in descending order.  It has at most 10 entries, it is
    in descending order of issued_count, the books of one issued_count
    are in the order of the catalog (they form the beginning of the
    catalog's books of that count), no book left out was issued more
    often than a listed one, and when the catalog has 10 books or fewer
    the list holds all of them. *)
Theorem popular_report st :
  let all := PyDict.values (books (self st)) in
  let pop := popular_books (self st) in
  (forall r st',
     generate_report fromisoformat strptime_ymd st = (Ret r, st') ->
     popular r = map Book_to_dict pop)
  /\ ((forall loan, In loan (loans (self st)) -> parse (snd loan) <> None) ->
      exists r st', generate_report fromisoformat strptime_ymd st = (Ret r, st'))
  /\ (List.length pop <= 10)%nat
  /\ List.length pop = Nat.min 10 (List.length all)
  /\ StronglySorted more_issued pop
  /\ (forall c, exists rest, with_count c all = (with_count c pop ++ rest)%list)
  /\ (exists rest,
        Permutation (pop ++ rest) all
        /\ forall a b, In a pop -> In b rest ->
              b_issued_count b <= b_issued_count a)
  /\ ((List.length all <= 10)%nat ->
      Permutation pop all /\ forall c, with_count c pop = with_count c all).
Proof.
  intros all pop.
  set (srt := sorted_desc b_issued_count all).
  assert (Hpop : pop = firstn 10 srt) by reflexivity.
  assert (Hsplit : srt = (pop ++ skipn 10 srt)%list)
    by (rewrite Hpop; symmetry; apply firstn_skipn).
  assert (Hsorted : StronglySorted more_issued srt)
    by apply sorted_desc_sorted.
  split; [|split; [|split; [|split; [|split; [|split; [|split]]]]]].
  - intros r st' H. rewrite generate_report_run in H.
    destruct (forallb _ _); inversion H. reflexivity.
  - intros Hread. rewrite generate_report_run. fold parse.
    rewrite readable_all by exact Hread. eauto.
  - rewrite Hpop. apply firstn_le_length.
  - rewrite Hpop, length_firstn. unfold srt. now rewrite sorted_desc_length.
  - rewrite Hpop. now apply firstn_sorted.
  - intros c. exists (with_count c (skipn 10 srt)).
    unfold with_count. rewrite <- filter_app, <- Hsplit.
    symmetry. apply sorted_desc_stable.
  - exists (skipn 10 srt). split.
    + rewrite <- Hsplit. apply sorted_desc_perm.
    + rewrite Hsplit in Hsorted. clear Hsplit Hpop.
      induction pop as [|x pop' IH]; intros a b Ha Hb; [destruct Ha|].
      simpl in Hsorted. inversion Hsorted as [|? ? Hs Hall]; subst.
      destruct Ha as [<-|Ha]; [|now apply IH].
      rewrite Forall_forall in Hall. apply Hall. apply in_or_app. now right.
  - intros Hlen.
    assert (Hall : pop = srt).
    { rewrite Hpop. apply firstn_all2. unfold srt.
      now rewrite sorted_desc_length. }
    rewrite Hall. split; [apply sorted_desc_perm|].
    intros c. apply sorted_desc_stable.
Qed.
End ReportFacts.

Section ReportOnRuns.
Variable fromisoformat : string -> option datetime.
Variable strptime_ymd : string -> option datetime.

(** [fromisoformat] reads the form YYYY-MM-DD, in every Python version. *)
Hypothesis fromisoformat_iso :
  forall d, valid_date d ->
    exists dt, fromisoformat (date_isoformat d) = Some dt /\ dt_date dt = d.

(** In every run of the program [generate_report] returns a report: the
    due dates of the store were written by [issue_book], so they can be
    read. *)
Lemma report_on_runs st :
  reachable_io st ->
  generate_report fromisoformat strptime_ymd st
  = (Ret (report_of (due_date_of fromisoformat strptime_ymd) st),
     mkState (self st) (tick 1 (world st))).
Proof.
  intros Hr. apply reachable_io_invariants in Hr as [_ [Hdues _]].
  rewrite generate_report_run. rewrite readable_all; [reflexivity|].
  intros [[u t] due] Hin. apply in_loans in Hin as [Hu Ht].
  apply in_map_iff in Hu as ([i u'] & Heq & Hu). simpl in Heq. subst u'.
  destruct (Hdues i u t due Hu Ht) as (d & Hd & ->).
  destruct (fromisoformat_iso d Hd) as (dt & Hdt & _).
  unfold due_date_of. simpl. rewrite Hdt. discriminate.
Qed.
End ReportOnRuns.

Lemma parse_ymd_iso d :
  valid_date d ->
  exists dt, parse_ymd (date_isoformat d) = Some dt /\ dt_date dt = d.
Proof.
  intros Hd. destruct (parse_date_isoformat d Hd) as [H _]. eauto.
Qed.

(* ===================================================================== *)
(** ** The theorems on sample runs *)
(* ===================================================================== *)

Lemma issue_book_success_witness :
  PyDict.get "user-0" (users (self sample_state)) = Some sample_user
  /\ PyDict.get "Dune" (books (self sample_state)) = Some sample_book
  /\ 0 < b_quantity sample_book
  /\ 0 < toordinal (dt_date (now sample_state)) + 14 <= _MAXORDINAL
  /\ issue_book "user-0" "Dune" sample_state
     = (Ret (true, "Issued. Due: 2024-03-05"),
        issued "user-0" "Dune" sample_user sample_book "2024-03-05" sample_state).
Proof.
  assert (H1 : PyDict.get "user-0" (users (self sample_state)) = Some sample_user)
    by reflexivity.
  assert (H2 : PyDict.get "Dune" (books (self sample_state)) = Some sample_book)
    by reflexivity.
  assert (H3 : 0 < b_quantity sample_book) by reflexivity.
  assert (H4 : 0 < toordinal (dt_date (now sample_state)) + 14 <= _MAXORDINAL)
    by (split; vm_compute; [reflexivity | discriminate]).
  split; [exact H1|]. split; [exact H2|]. split; [exact H3|]. split; [exact H4|].
  exact (proj1 (issue_book_success "user-0" "Dune" sample_state
                  sample_user sample_book H1 H2 H3 H4)).
Defined.

Lemma issue_book_failure_witness :
  issue_book "nobody" "Dune" sample_state = (Ret (false, "User not found"), sample_state)
  /\ issue_book "user-0" "Emma" sample_state = (Ret (false, "Book not found"), sample_state)
  /\ issue_book "user-0" "Dune" issued_state
     = (Ret (false, "No copies available"), issued_state).
Proof.
  split; [|split].
  - apply (proj1 (issue_book_failure "nobody" "Dune" sample_state)). reflexivity.
  - apply (proj1 (proj2 (issue_book_failure "user-0" "Emma" sample_state)));
      reflexivity.
  - apply (proj1 (proj2 (proj2 (issue_book_failure "user-0" "Dune" issued_state)))
             (mkBook "Dune" "Frank Herbert" "SF" 0 1)).
    + reflexivity.
    + reflexivity.
    + simpl. lia.
Defined.

Lemma return_book_spec_witness :
  return_book "nobody" "Dune" issued_state = (Ret (false, "User not found"), issued_state)
  /\ return_book "user-0" "Emma" issued_state
     = (Ret (false, "User did not borrow this book"), issued_state)
  /\ books (self (snd (return_book "user-0" "Dune" issued_state)))
     = [("Dune", mkBook "Dune" "Frank Herbert" "SF" 1 1)]
  /\ books (self (snd (return_book "user-0" "Dune" removed_state)))
     = [("Dune", mkBook "Dune" "Unknown" "Unknown" 1 0)].
Proof.
  pose (u := mkUser "user-0" "Ann" "ann@example.org" [("Dune", "2024-03-05")]).
  split; [|split; [|split]].
  - apply (proj1 (return_book_spec "nobody" "Dune" issued_state)). reflexivity.
  - apply (proj1 (proj2 (return_book_spec "user-0" "Emma" issued_state)) u);
      reflexivity.
  - rewrite (proj1 (proj2 (proj2 (return_book_spec "user-0" "Dune" issued_state))
                      u eq_refl eq_refl)).
    reflexivity.
  - rewrite (proj1 (proj2 (proj2 (return_book_spec "user-0" "Dune" removed_state))
                      u eq_refl eq_refl)).
    reflexivity.
Defined.

Lemma issued_state_reachable_io : reachable_io issued_state.
Proof.
  unfold issued_state, sample_state. repeat apply reach_io_step.
  apply reach_io_init. intros f. reflexivity.
Qed.

Lemma save_load_roundtrip_witness :
  Library_ok (self issued_state)
  /\ ints_fit (self issued_state) = true
  /\ pairs_free (self issued_state) = true
  /\ exists st3,
       load_from_file DATA_FILE
         (fresh_state (world (snd (save_to_file DATA_FILE issued_state))))
       = (Ret true, st3)
       /\ self st3 = self issued_state.
Proof.
  assert (Hok : Library_ok (self issued_state))
    by apply reachable_io_ok, issued_state_reachable_io.
  assert (Hfit : ints_fit (self issued_state) = true) by (vm_compute; reflexivity).
  assert (Hfree : pairs_free (self issued_state) = true)
    by (vm_compute; reflexivity).
  split; [exact Hok|]. split; [exact Hfit|]. split; [exact Hfree|].
  destruct (save_load_roundtrip DATA_FILE issued_state Hok Hfit Hfree)
    as (st1 & Hsave & Hself & Hload).
  destruct (Hload (fresh_state (world (snd (save_to_file DATA_FILE issued_state)))))
    as (st3 & H3 & Hs3 & _).
  - rewrite Hsave. reflexivity.
  - exists st3. split; assumption.
Defined.

(** C4, where the claim as it was stated fails.  Two calls of [add_book]
    with a quantity of 4300 digits leave a quantity of 4301 digits:
    [save_to_file] then raises [ValueError] and leaves a file that
    [load_from_file] rejects.  A title made of the two surrogates of U+1F600
    is saved, and loaded as the one character U+1F600: the catalog that is
    read has another key and another title than the one that was saved. *)
Lemma save_load_roundtrip_counterexample :
  (reachable_io huge_state
   /\ save_to_file DATA_FILE huge_state
      = (Raise ValueError,
         mkState (self huge_state) (written DATA_FILE NotJson (world huge_state)))
   /\ load_from_file DATA_FILE (snd (save_to_file DATA_FILE huge_state))
      = (Raise JSONDecodeError, snd (save_to_file DATA_FILE huge_state)))
  /\ (reachable_io grin_state
      /\ fst (save_to_file DATA_FILE grin_state) = Ret true
      /\ fst (load_from_file DATA_FILE (snd (save_to_file DATA_FILE grin_state)))
         = Ret true
      /\ books (self grin_state)
         = [(grin_surrogates, mkBook grin_surrogates "Frank Herbert" "SF" 1 0)]
      /\ books (self (snd (load_from_file DATA_FILE
                             (snd (save_to_file DATA_FILE grin_state)))))
         = [(grin, mkBook grin "Frank Herbert" "SF" 1 0)]
      /\ grin <> grin_surrogates).
Proof.
  assert (Rh : reachable_io huge_state).
  { unfold huge_state. repeat apply reach_io_step. apply reach_io_init.
    intros f. reflexivity. }
  assert (Rg : reachable_io grin_state).
  { unfold grin_state. repeat apply reach_io_step. apply reach_io_init.
    intros f. reflexivity. }
  split.
  - destruct (load_unsaved DATA_FILE huge_state
                (snd (save_to_file DATA_FILE huge_state))
                (reachable_io_ok _ Rh)) as [Hsave Hload];
      [vm_compute; reflexivity|reflexivity|].
    split; [exact Rh|]. split; [exact Hsave|exact Hload].
  - destruct (load_saved DATA_FILE grin_state
                (snd (save_to_file DATA_FILE grin_state))
                (reachable_io_ok _ Rg)) as [Hsave Hload];
      [vm_compute; reflexivity|reflexivity|].
    split; [exact Rg|]. rewrite Hload, Hsave. cbn [fst snd self].
    split; [reflexivity|]. split; [reflexivity|].
    split; [vm_compute; reflexivity|]. split; [vm_compute; reflexivity|].
    vm_compute. discriminate.
Qed.

Lemma quantity_never_negative_witness :
  reachable issued_state
  /\ 0 <= b_quantity (mkBook "Dune" "Frank Herbert" "SF" 0 1).
Proof.
  assert (Hr : reachable issued_state).
  { unfold issued_state, sample_state.
    repeat apply reach_step; try exact I; [apply reach_init | simpl; lia]. }
  split; [exact Hr|].
  apply (quantity_never_negative issued_state Hr "Dune"). vm_compute.
  left. reflexivity.
Defined.

Lemma overdue_report_witness :
  (forall loan, In loan (loans (self later_state)) ->
     parse_ymd (snd loan) <> None \/ parse_ymd (snd loan) <> None)
  /\ (forall loan, In loan (loans (self issued_state)) ->
        parse_ymd (snd loan) <> None \/ parse_ymd (snd loan) <> None)
  /\ date_isoformat (dt_date (now later_state)) = "2024-03-12"
  /\ date_isoformat (dt_date (now issued_state)) = "2024-03-05"
  /\ (exists r,
        generate_report parse_ymd parse_ymd later_state
        = (Ret r, mkState (self later_state) (tick 1 (world later_state)))
        /\ overdue r = [JDict [("user_id", JStr "user-0"); ("name", JStr "Ann");
                               ("book", JStr "Dune"); ("due", JStr "2024-03-05")]])
  /\ (exists r,
        generate_report parse_ymd parse_ymd issued_state
        = (Ret r, mkState (self issued_state) (tick 1 (world issued_state)))
        /\ overdue r = []).
Proof.
  assert (H : forall loan, In loan (loans (self later_state)) ->
                parse_ymd (snd loan) <> None \/ parse_ymd (snd loan) <> None).
  { intros loan Hin. vm_compute in Hin. destruct Hin as [<-|[]].
    left. vm_compute. discriminate. }
  assert (H' : forall loan, In loan (loans (self issued_state)) ->
                 parse_ymd (snd loan) <> None \/ parse_ymd (snd loan) <> None)
    by exact H.
  split; [exact H|]. split; [exact H'|].
  split; [vm_compute; reflexivity|]. split; [vm_compute; reflexivity|]. split.
  - destruct (overdue_report parse_ymd parse_ymd later_state H)
      as (r & Hrun & Hov & _).
    exists r. split; [exact Hrun|]. rewrite Hov. vm_compute. reflexivity.
  - destruct (overdue_report parse_ymd parse_ymd issued_state H')
      as (r & Hrun & Hov & _).
    exists r. split; [exact Hrun|]. rewrite Hov. vm_compute. reflexivity.
Defined.

Lemma popular_report_witness :
  map b_title (popular_books (self shelf_state))
  = ["book-2"; "book-5"; "book-8"; "book-1"; "book-4"; "book-7"; "book-10";
     "book-0"; "book-3"; "book-6"]
  /\ (List.length (popular_books (self shelf_state)) <= 10)%nat
  /\ exists r st',
       generate_report parse_ymd parse_ymd shelf_state = (Ret r, st')
       /\ popular r = map Book_to_dict (popular_books (self shelf_state)).
Proof.
  pose proof (popular_report parse_ymd parse_ymd shelf_state) as (Hpop & Hret & Hlen & _).
  split; [reflexivity|]. split; [exact Hlen|].
  destruct Hret as (r & st' & Hrun); [intros loan []|].
  exists r, st'. split; [exact Hrun|]. exact (Hpop r st' Hrun).
Defined.

Lemma add_book_spec_witness :
  books (self (snd (add_book "Emma" "Jane Austen" "Novel" 2 sample_state)))
  = [("Dune", sample_book); ("Emma", mkBook "Emma" "Jane Austen" "Novel" 2 0)]
  /\ PyDict.get "Dune" (books (self (book_added "Dune" "Someone" "Else" 3 sample_state)))
     = Some (mkBook "Dune" "Frank Herbert" "SF" 4 0).
Proof.
  split.
  - rewrite (proj1 (add_book_spec "Emma" "Jane Austen" "Novel" 2 sample_state)).
    reflexivity.
  - apply (proj1 (proj2 (proj2 (add_book_spec "Dune" "Someone" "Else" 3 sample_state)))
             sample_book).
    reflexivity.
Defined.

Lemma load_missing_file_witness :
  disk (world sample_state) DATA_FILE = None
  /\ load_from_file DATA_FILE sample_state = (Ret false, sample_state).
Proof.
  split; [reflexivity|].
  apply (proj1 (load_missing_file DATA_FILE sample_state eq_refl)).
Defined.

Lemma keys_agree_with_records_witness :
  reachable_io reloaded_state
  /\ key_coherent (self reloaded_state).
Proof.
  assert (Hr : reachable_io reloaded_state).
  { unfold reloaded_state, issued_state, sample_state.
    repeat apply reach_io_step. apply reach_io_init. intros f. reflexivity. }
  split; [exact Hr|].
  apply (keys_agree_with_records reloaded_state Hr).
Defined.

(** The scenarios of the specification *)

Example scenario_dune :
  let st1 := issued_state in
  let r2 := issue_book "user-0" "Dune" st1 in
  let r3 := return_book "user-0" "Dune" (snd r2) in
  fst (issue_book "user-0" "Dune" sample_state) = Ret (true, "Issued. Due: 2024-03-05")
  /\ PyDict.get "Dune" (books (self st1))
     = Some (mkBook "Dune" "Frank Herbert" "SF" 0 1)
  /\ fst r2 = Ret (false, "No copies available")
  /\ fst r3 = Ret (true, "Returned")
  /\ PyDict.get "Dune" (books (self (snd r3)))
     = Some (mkBook "Dune" "Frank Herbert" "SF" 1 1)
  /\ PyDict.get "user-0" (users (self (snd r3))) = Some sample_user.
Proof. repeat split. Qed.

Example scenario_removed_book_returned :
  let r := return_book "user-0" "Dune" removed_state in
  books (self removed_state) = []
  /\ fst r = Ret (true, "Returned")
  /\ books (self (snd r)) = [("Dune", mkBook "Dune" "Unknown" "Unknown" 1 0)].
Proof. repeat split. Qed.

Example scenario_due_today_not_overdue :
  dt_date (now issued_state) = mkdate 2024 3 5
  /\ fst (generate_report parse_ymd parse_ymd issued_state)
     = Ret (mkReport 0 1 1
              [Book_to_dict (mkBook "Dune" "Frank Herbert" "SF" 0 1)] []).
Proof. split; reflexivity. Qed.

Example scenario_unreadable_due_date :
  let u := mkUser "u" "Bob" "bob" [("Dune", "soon")] in
  fst (generate_report parse_ymd parse_ymd
         (mkState (mkLibrary [] [("u", u)] []) sample_world))
  = Raise ValueError.
Proof. reflexivity. Qed.

Example scenario_overflow :
  let w := mkWorld (fun _ => mkdatetime (mkdate 9999 12 25) 0 0 0 0) 0
                   (fun _ => "id") 0 (fun _ => None) in
  let st := mkState (self sample_state) w in
  fst (issue_book "user-0" "Dune" st) = Raise OverflowError
  /\ self (snd (issue_book "user-0" "Dune" st)) = self st.
Proof. split; reflexivity. Qed.

Example ord2ymd_2024 : fromordinal 738945 = mkdate 2024 2 29.
Proof. reflexivity. Qed.

Example ymd2ord_2024 : toordinal (mkdate 2024 2 29) = 738945.
Proof. reflexivity. Qed.

Example ord2ymd_max : fromordinal _MAXORDINAL = mkdate 9999 12 31.
Proof. reflexivity. Qed.

Example iso_example :
  datetime_isoformat (mkdatetime (mkdate 2024 3 5) 7 8 9 120)
  = "2024-03-05T07:08:09.000120".
Proof. reflexivity. Qed.
